(** * github-runner-operator: configuration model and OpenStack provisioning

    Shallow embedding of
    - [github_runner_manager/configuration/base.py]
      ([ProxyConfig], [SSHDebugConnection]), and
    - [src/openstack_cloud/openstack_manager.py]
      ([_create_connection], [build_image], [create_instance_config],
      [create_instance]),
    followed by the properties established about them. *)

From Stdlib Require Import String Ascii List ZArith Bool Lia.
Import ListNotations.
Local Open Scope string_scope.
Local Open Scope Z_scope.

(* ===================================================================== *)
(** * Python values shared by both files                                  *)
(* ===================================================================== *)

(** Exceptions.  The ones of the repository that are raised [from] another
    exception carry that cause. *)
#[warnings="-register-all"]
Inductive exn : Type :=
| KeyError (key : string)
| IndexError (msg : string)
| ValueError (msg : string)
| AssertionError
| RuntimeError (msg : string)
| ValidationError (msg : string)
| OpenStackCloudException (msg : string)
| RunnerBinaryError (msg : string)
| SubprocessError (msg : string)
| UnsupportedArchitectureError (arch : string)
| OpenstackImageBuildError (msg : string) (cause : option exn)
| InstanceLaunchError (msg : string) (cause : option exn)
| OtherException (msg : string).

Definition result (A : Type) : Type := (exn + A)%type.
Definition Ok {A : Type} (a : A) : result A := inr a.
Definition Err {A : Type} (e : exn) : result A := inl e.

(** Truthiness of a [str]: every string but the empty one. *)
Definition str_truthy (s : string) : bool :=
  match s with EmptyString => false | String _ _ => true end.

(* ===================================================================== *)
(** * configuration/base.py                                               *)
(* ===================================================================== *)

(** A pydantic [AnyHttpUrl]: a [str] (the text of the URL) that also carries
    the parts the parser found.  [port] is the port as written in the URL,
    absent when the URL has none. *)
Record AnyHttpUrl : Type := {
  url : string;
  scheme : string;
  host : option string;
  port : option string
}.

Definition is_digit (c : ascii) : bool :=
  let n := nat_of_ascii c in (48 <=? n)%nat && (n <=? 57)%nat.

Fixpoint all_digits (s : string) : bool :=
  match s with
  | EmptyString => true
  | String c rest => is_digit c && all_digits rest
  end.

(** What pydantic's validation of an [AnyHttpUrl] field guarantees of the
    value it lets through: a non-empty text, an http or https scheme, a host
    (the type requires one), and a port made of one digit or more when the
    URL has one.  Parsing the text is the library's; the constructors below
    take the parsed candidate and apply these conditions. *)
Definition AnyHttpUrl_valid (u : AnyHttpUrl) : bool :=
  str_truthy (url u)
  && (String.eqb (scheme u) "http" || String.eqb (scheme u) "https")
  && match host u with Some h => str_truthy h | None => false end
  && match port u with Some p => str_truthy p && all_digits p | None => true end.

(** Truthiness of an [Optional[AnyHttpUrl]]: [None] is false, a URL is a
    [str] and is true unless empty. *)
Definition url_truthy (o : option AnyHttpUrl) : bool :=
  match o with None => false | Some u => str_truthy (url u) end.

(** Truthiness of an [Optional[str]]. *)
Definition opt_str_truthy (o : option string) : bool :=
  match o with None => false | Some s => str_truthy s end.

(** Python's [a or b] on two optional URLs. *)
Definition url_or (a b : option AnyHttpUrl) : option AnyHttpUrl :=
  if url_truthy a then a else b.

(** [class ProxyConfig(BaseModel)]. *)
Record ProxyConfig : Type := {
  http : option AnyHttpUrl;
  https : option AnyHttpUrl;
  no_proxy : option string;
  use_aproxy : bool
}.

(** An [Optional[str]] inside an f-string. *)
Definition format_optional_str (o : option string) : string :=
  match o with Some s => s | None => "None" end.

(** [ProxyConfig.aproxy_address] (a property; the [assert] raises
    [AssertionError] when it fails). *)
Definition aproxy_address (self : ProxyConfig) : result (option string) :=
  if use_aproxy self then
    let proxy_address := url_or (http self) (https self) in
    match proxy_address with
    | Some pa =>
        match host pa with
        | Some h =>
            Ok (Some (if negb (opt_str_truthy (port pa)) then h
                      else h ++ ":" ++ format_optional_str (port pa)))
        | None => Err AssertionError
        end
    | None => Err AssertionError
    end
  else Ok None.

(** The [values] dictionary a pydantic validator receives: the fields
    declared before the validated one that passed their own validation. *)
Inductive FieldValue : Type :=
| UrlField (v : option AnyHttpUrl)
| StrField (v : option string).

Definition Values : Type := list (string * FieldValue).

Fixpoint values_get (values : Values) (key : string) : option FieldValue :=
  match values with
  | [] => None
  | (k, v) :: rest => if String.eqb k key then Some v else values_get rest key
  end.

(** Truthiness of [values.get(key)]. *)
Definition values_get_truthy (values : Values) (key : string) : bool :=
  match values_get values key with
  | None => false
  | Some (UrlField v) => url_truthy v
  | Some (StrField v) => opt_str_truthy v
  end.

(** [ProxyConfig.check_use_aproxy], the validator of [use_aproxy]. *)
Definition check_use_aproxy (use_aproxy : bool) (values : Values) : result bool :=
  if use_aproxy && negb (values_get_truthy values "http" || values_get_truthy values "https")
  then Err (ValueError "aproxy requires http or https to be set")
  else Ok use_aproxy.

(** [ProxyConfig.__bool__]. *)
Definition ProxyConfig_bool (self : ProxyConfig) : bool :=
  url_truthy (url_or (http self) (https self)).

(** The keyword arguments of a [ProxyConfig(...)] call.  The three optional
    fields default to [None]; [use_aproxy] defaults to [False] when the
    argument is not given. *)
Record ProxyConfigArgs : Type := {
  arg_http : option AnyHttpUrl;
  arg_https : option AnyHttpUrl;
  arg_no_proxy : option string;
  arg_use_aproxy : option bool
}.

(** Validation of an [Optional[AnyHttpUrl]] field. *)
Definition validate_optional_url (v : option AnyHttpUrl) : result (option AnyHttpUrl) :=
  match v with
  | None => Ok None
  | Some u => if AnyHttpUrl_valid u then Ok (Some u)
              else Err (ValidationError "invalid or missing URL scheme")
  end.

(** [values] as built while the fields are validated in declaration order:
    a field that failed is left out. *)
Definition values_before_use_aproxy
  (http_r https_r : result (option AnyHttpUrl)) (no_proxy_v : option string) : Values :=
  ((match http_r with inr v => [("http", UrlField v)] | inl _ => [] end)
   ++ (match https_r with inr v => [("https", UrlField v)] | inl _ => [] end)
   ++ [("no_proxy", StrField no_proxy_v)])%list.

(** Construction of a [ProxyConfig]: every field is validated in declaration
    order, the validator of [use_aproxy] runs on a given value only, and any
    failure, a [ValueError] of the validator included, is reported as a
    [ValidationError]. *)
Definition ProxyConfig_new (args : ProxyConfigArgs) : result ProxyConfig :=
  let http_r := validate_optional_url (arg_http args) in
  let https_r := validate_optional_url (arg_https args) in
  let values := values_before_use_aproxy http_r https_r (arg_no_proxy args) in
  let use_aproxy_r :=
    match arg_use_aproxy args with
    | None => Ok false
    | Some b => check_use_aproxy b values
    end in
  match http_r, https_r, use_aproxy_r with
  | inr h, inr hs, inr u =>
      Ok {| http := h; https := hs; no_proxy := arg_no_proxy args; use_aproxy := u |}
  | inl _, _, _ => Err (ValidationError "http")
  | _, inl _, _ => Err (ValidationError "https")
  | _, _, inl _ => Err (ValidationError "use_aproxy")
  end.

(** An [IPvAnyAddress] as the integer of the address. *)
Inductive IPvAnyAddress : Type :=
| IPv4Address (n : Z)
| IPv6Address (n : Z).

Definition IPvAnyAddress_valid (a : IPvAnyAddress) : bool :=
  match a with
  | IPv4Address n => (0 <=? n) && (n <? 2 ^ 32)
  | IPv6Address n => (0 <=? n) && (n <? 2 ^ 128)
  end.

(** [class SSHDebugConnection(BaseModel)]. *)
Record SSHDebugConnection : Type := {
  ssh_host : IPvAnyAddress;
  ssh_port : Z;
  rsa_fingerprint : string;
  ed25519_fingerprint : string
}.

(** [re] matching of the pattern [^SHA256:.*]: the text starts with
    [SHA256:]; [.*] also matches the empty rest. *)
Definition fingerprint_pattern_matches (s : string) : bool :=
  String.prefix "SHA256:" s.

(** The keyword arguments of an [SSHDebugConnection(...)] call.  [host] and
    the two fingerprints are required; [port] is declared
    [Field(0, gt=0, le=65535)] and so has the default 0. *)
Record SSHDebugConnectionArgs : Type := {
  arg_host : option IPvAnyAddress;
  arg_port : option Z;
  arg_rsa_fingerprint : option string;
  arg_ed25519_fingerprint : option string
}.

(** Validation of [port]: the constraints [gt=0, le=65535] apply to a given
    value; pydantic does not validate a default, so an omitted port is 0. *)
Definition validate_port (v : option Z) : result Z :=
  match v with
  | None => Ok 0
  | Some p => if (0 <? p) && (p <=? 65535) then Ok p
              else Err (ValidationError "port")
  end.

Definition validate_fingerprint (field : string) (v : option string) : result string :=
  match v with
  | None => Err (ValidationError (field ++ ": field required"))
  | Some s => if fingerprint_pattern_matches s then Ok s
              else Err (ValidationError (field ++ ": string does not match pattern"))
  end.

Definition validate_host (v : option IPvAnyAddress) : result IPvAnyAddress :=
  match v with
  | None => Err (ValidationError "host: field required")
  | Some a => if IPvAnyAddress_valid a then Ok a
              else Err (ValidationError "host: not a valid IP address")
  end.

(** Construction of an [SSHDebugConnection]. *)
Definition SSHDebugConnection_new (args : SSHDebugConnectionArgs) : result SSHDebugConnection :=
  match validate_host (arg_host args),
        validate_port (arg_port args),
        validate_fingerprint "rsa_fingerprint" (arg_rsa_fingerprint args),
        validate_fingerprint "ed25519_fingerprint" (arg_ed25519_fingerprint args) with
  | inr h, inr p, inr r, inr e =>
      Ok {| ssh_host := h; ssh_port := p; rsa_fingerprint := r; ed25519_fingerprint := e |}
  | inl _, _, _, _ => Err (ValidationError "host")
  | _, inl _, _, _ => Err (ValidationError "port")
  | _, _, inl _, _ => Err (ValidationError "rsa_fingerprint")
  | _, _, _, inl _ => Err (ValidationError "ed25519_fingerprint")
  end.

(** [@dataclass class ApplicationConfiguration]; of its fields the label
    list and the support services are kept. *)
Record SupportServiceConfig : Type := {
  proxy_config : option ProxyConfig;
  dockerhub_mirror : option string;
  ssh_debug_connections : option (list SSHDebugConnection)
}.

Record ApplicationConfiguration : Type := {
  extra_labels : list string;
  service_config : SupportServiceConfig
}.

(* ===================================================================== *)
(** * The world outside openstack_manager.py                              *)
(* ===================================================================== *)

(** [openstack.image.v2.image.Image], of which the code reads [id]. *)
Record Image : Type := {
  image_id : string;
  image_name : string
}.

(** A server as requested from [create_server]. *)
Record Server : Type := {
  server_name : string;
  server_image : Image;
  server_flavor : string;
  server_userdata : string
}.

(** [runner_type.GithubPath], of which the code calls [path()]. *)
Record GithubPath : Type := { path : string }.

(** [github_type.RunnerApplication], of which the code reads two keys. *)
Record RunnerApplication : Type := {
  download_url : string;
  architecture : string
}.

(** A Python [dict] with [str] keys, in insertion order. *)
Definition PyDict (V : Type) : Type := list (string * V).

Fixpoint dict_getitem {V : Type} (d : PyDict V) (key : string) : option V :=
  match d with
  | [] => None
  | (k, v) :: rest => if String.eqb k key then Some v else dict_getitem rest key
  end.

Definition dict_keys {V : Type} (d : PyDict V) : list string := map fst d.

(** [cloud_config: dict[str, dict]] in the clouds.yaml format: under the key
    [clouds], one entry per named cloud. *)
Definition CloudEntry : Type := PyDict string.
Definition CloudConfig : Type := PyDict (PyDict CloudEntry).

(** A value handed to a jinja template. *)
Inductive TemplateValue : Type :=
| TStr (s : string)
| TProxies (p : option ProxyConfig)
| TSshDebug (c : option SSHDebugConnection).

(** A document handed to [json.dumps]. *)
#[warnings="-register-all"]
Inductive Json : Type :=
| JStr (s : string)
| JObj (items : list (string * Json)).

(** The calls that leave the module, with their arguments. *)
Inductive Call : Type :=
| get_runner_application_call (p : GithubPath) (arch : string)
| get_runner_registration_token_call (p : GithubPath)
| execute_command_call (cmd : list string) (check_exit : bool)
| get_template_call (template : string)
| render_call (template : string) (context : list (string * TemplateValue))
| token_hex_call (nbytes : nat)
| choice_call (population : nat)
| connect_call (cloud : string)
| search_images_call (name_or_id : string)
| delete_image_call (name_or_id : string) (wait : bool)
| create_image_call (name filename : string) (wait : bool)
| create_server_call (name : string) (image : Image) (flavor userdata : string) (wait : bool)
| sleep_call (seconds : Z).

(** How the world answers: one function per external operation, each given
    the calls made so far (the one being answered last).  An answer [inl e]
    is the operation raising [e]. *)
Record Stub : Type := {
  on_get_runner_application : list Call -> result RunnerApplication;
  on_get_runner_registration_token : list Call -> result string;
  on_execute_command : list Call -> result (string * Z);
  on_get_template : list Call -> option exn;
  on_render : list Call -> result string;
  on_json_dumps : Json -> string;
  on_token_hex : list Call -> string;
  on_choice : list Call -> nat;
  on_connect : list Call -> option exn;
  on_search_images : list Call -> option exn;
  (** [inr true]: the image is deleted; [inr false]: the cloud does not
      delete it and [delete_image] returns [False]. *)
  on_delete_image : list Call -> result bool;
  (** The id the cloud gives to the uploaded image. *)
  on_create_image : list Call -> result string;
  on_create_server : list Call -> option exn
}.

(** The state the module acts on: the calls made so far (oldest first), the
    cloud's image store and servers, the log, and the stub that answers. *)
Record World : Type := {
  calls : list Call;
  images : list Image;
  servers : list Server;
  log : list string;
  stub : Stub
}.

Definition record_call (c : Call) (w : World) : World :=
  {| calls := calls w ++ [c]; images := images w; servers := servers w;
     log := log w; stub := stub w |}.

Definition set_images (l : list Image) (w : World) : World :=
  {| calls := calls w; images := l; servers := servers w;
     log := log w; stub := stub w |}.

Definition add_server (s : Server) (w : World) : World :=
  {| calls := calls w; images := images w; servers := servers w ++ [s];
     log := log w; stub := stub w |}.

Definition add_log (msg : string) (w : World) : World :=
  {| calls := calls w; images := images w; servers := servers w;
     log := log w ++ [msg]; stub := stub w |}.

(** Computations of the module: a state and exception monad whose state
    survives an exception. *)
Definition M (A : Type) : Type := World -> result A * World.

Definition ret {A : Type} (a : A) : M A := fun w => (inr a, w).

Definition bind {A B : Type} (c : M A) (k : A -> M B) : M B :=
  fun w => match c w with
           | (inr a, w') => k a w'
           | (inl e, w') => (inl e, w')
           end.

Definition raise {A : Type} (e : exn) : M A := fun w => (inl e, w).

(** [try: c  except ...: handler]; a handler that does not catch the
    exception re-raises it. *)
Definition try_except {A : Type} (c : M A) (handler : exn -> M A) : M A :=
  fun w => match c w with
           | (inr a, w') => (inr a, w')
           | (inl e, w') => handler e w'
           end.

Declare Scope py_scope.
Delimit Scope py_scope with py.
Notation "x <- c ;; k" := (bind c (fun x => k))
  (at level 61, c at next level, right associativity) : py_scope.
Notation "c ;;; k" := (bind c (fun _ => k))
  (at level 61, right associativity) : py_scope.
Local Open Scope py_scope.

(** An external call: it is recorded, the stub answers, and on a normal
    return the world takes the call's effect. *)
Definition external {A : Type} (c : Call) (answer : World -> result A)
  (effect : A -> World -> World) : M A :=
  fun w => let w1 := record_call c w in
           match answer w1 with
           | inl e => (inl e, w1)
           | inr a => (inr a, effect a w1)
           end.

Definition no_effect {A : Type} (_ : A) (w : World) : World := w.

Definition raise_or {A : Type} (fault : option exn) (a : A) : result A :=
  match fault with Some e => inl e | None => inr a end.

Definition logger_warning (msg : string) : M unit :=
  fun w => (inr tt, add_log msg w).

(** [except OpenStackCloudException]. *)
Definition is_OpenStackCloudException (e : exn) : bool :=
  match e with OpenStackCloudException _ => true | _ => false end.

Definition is_RunnerBinaryError (e : exn) : bool :=
  match e with RunnerBinaryError _ => true | _ => false end.

Definition is_SubprocessError (e : exn) : bool :=
  match e with SubprocessError _ => true | _ => false end.

Definition is_UnsupportedArchitectureError (e : exn) : bool :=
  match e with UnsupportedArchitectureError _ => true | _ => false end.

(** ** The external operations *)

(** The two methods of [github_client] the module calls. *)
Definition get_runner_application (p : GithubPath) (arch : string) : M RunnerApplication :=
  external (get_runner_application_call p arch)
    (fun w => on_get_runner_application (stub w) (calls w)) no_effect.

Definition get_runner_registration_token (p : GithubPath) : M string :=
  external (get_runner_registration_token_call p)
    (fun w => on_get_runner_registration_token (stub w) (calls w)) no_effect.

(** [utilities.execute_command], which is not among the sources: the
    command runs in the world, which answers with its output and exit code
    or with the exception raised. *)
Definition execute_command (cmd : list string) (check_exit : bool) : M (string * Z) :=
  external (execute_command_call cmd check_exit)
    (fun w => on_execute_command (stub w) (calls w)) no_effect.

(** [jinja2.Environment(loader=jinja2.FileSystemLoader(path), autoescape=...)];
    building it reads nothing. *)
Record Environment : Type := { loader_path : string; autoescape : bool }.

Record Template : Type := { template_name : string }.

Definition get_template (env : Environment) (template : string) : M Template :=
  external (get_template_call template)
    (fun w => raise_or (on_get_template (stub w) (calls w)) {| template_name := template |})
    no_effect.

(** [template.render(...)], the keyword arguments being the context. *)
Definition render (t : Template) (context : list (string * TemplateValue)) : M string :=
  external (render_call (template_name t) context)
    (fun w => on_render (stub w) (calls w)) no_effect.

Definition json_dumps (doc : Json) : M string :=
  fun w => (inr (on_json_dumps (stub w) doc), w).

Definition token_hex (nbytes : nat) : M string :=
  external (token_hex_call nbytes)
    (fun w => Ok (on_token_hex (stub w) (calls w))) no_effect.

(** [secrets.choice] on a sequence with a first element. *)
Definition choice {A : Type} (first : A) (others : list A) : M A :=
  external (choice_call (S (length others)))
    (fun w => Ok (nth (on_choice (stub w) (calls w) mod S (length others))%nat
                      (first :: others) first))
    no_effect.

Record Connection : Type := { connection_cloud : string }.

Definition openstack_connect (cloud_name : string) : M Connection :=
  external (connect_call cloud_name)
    (fun w => raise_or (on_connect (stub w) (calls w)) {| connection_cloud := cloud_name |})
    no_effect.

(** The cloud finds an image by its name or by its id. *)
Definition image_matches (name_or_id : string) (i : Image) : bool :=
  String.eqb (image_id i) name_or_id || String.eqb (image_name i) name_or_id.

Definition search_images (conn : Connection) (name_or_id : string) : M (list Image) :=
  external (search_images_call name_or_id)
    (fun w => raise_or (on_search_images (stub w) (calls w))
                       (filter (image_matches name_or_id) (images w)))
    no_effect.

Definition delete_image (conn : Connection) (name_or_id : string) (wait : bool) : M bool :=
  external (delete_image_call name_or_id wait)
    (fun w => on_delete_image (stub w) (calls w))
    (fun deleted w =>
       if deleted
       then set_images (filter (fun i => negb (image_matches name_or_id i)) (images w)) w
       else w).

Definition create_image (conn : Connection) (name filename : string) (wait : bool) : M Image :=
  external (create_image_call name filename wait)
    (fun w => match on_create_image (stub w) (calls w) with
              | inl e => inl e
              | inr new_id => inr {| image_id := new_id; image_name := name |}
              end)
    (fun i w => set_images (images w ++ [i]) w).

Definition create_server (conn : Connection) (name : string) (image : Image)
  (flavor userdata : string) (wait : bool) : M unit :=
  external (create_server_call name image flavor userdata wait)
    (fun w => raise_or (on_create_server (stub w) (calls w)) tt)
    (fun _ w => add_server {| server_name := name; server_image := image;
                              server_flavor := flavor; server_userdata := userdata |} w).

Definition sleep (seconds : Z) : M unit :=
  external (sleep_call seconds) (fun _ => Ok tt) no_effect.

(* ===================================================================== *)
(** * openstack_cloud/openstack_manager.py                                *)
(* ===================================================================== *)

(** The module imports [ProxyConfig] and [SSHDebugConnection] from
    [charm_state], which is not among the sources; the classes of the same
    names of configuration/base.py stand for them here. *)

Definition IMAGE_PATH_TMPL (architecture : string) : string :=
  "jammy-server-cloudimg-" ++ architecture ++ "-compressed.img".
Definition IMAGE_NAME : string := "jammy".
Definition BUILD_OPENSTACK_IMAGE_SCRIPT_FILENAME : string :=
  "scripts/build-openstack-image.sh".

(** [_create_connection]. *)
Definition _create_connection (cloud_config : CloudConfig) : M Connection :=
  match dict_getitem cloud_config "clouds" with
  | None => raise (KeyError "clouds")
  | Some entries =>
      let clouds := dict_keys entries in
      (if (1 <? length clouds)%nat
       then logger_warning
              "Multiple clouds defined in clouds.yaml. Using the first one to connect."
       else ret tt) ;;;
      match clouds with
      | [] => raise (IndexError "list index out of range")
      | cloud_name :: _ => openstack_connect cloud_name
      end
  end.

Definition templates_environment : Environment :=
  {| loader_path := "templates"; autoescape := true |}.

(** [_generate_docker_proxy_unit_file]. *)
Definition _generate_docker_proxy_unit_file (proxies : option ProxyConfig) : M string :=
  let environment := templates_environment in
  t <- get_template environment "systemd-docker-proxy.j2" ;;
  render t [("proxies", TProxies proxies)].

(** [_generate_docker_client_proxy_config_json]: only the entries whose
    value is a non-empty string are kept. *)
Definition _generate_docker_client_proxy_config_json
  (http_proxy https_proxy no_proxy : string) : M string :=
  json_dumps
    (JObj [("proxies",
            JObj [("default",
                   JObj (map (fun kv => (fst kv, JStr (snd kv)))
                           (filter (fun kv => str_truthy (snd kv))
                              [("httpProxy", http_proxy);
                               ("httpsProxy", https_proxy);
                               ("noProxy", no_proxy)])))])]).

(** Truthiness of [proxies: Optional[ProxyConfig]], through [__bool__]. *)
Definition proxies_truthy (proxies : option ProxyConfig) : bool :=
  match proxies with None => false | Some p => ProxyConfig_bool p end.

(** [str(proxies.f) if (proxies and proxies.f) else ""]. *)
Definition proxy_url_or_empty (proxies : option ProxyConfig)
  (f : ProxyConfig -> option AnyHttpUrl) : string :=
  match proxies with
  | Some p => if ProxyConfig_bool p && url_truthy (f p)
              then match f p with Some u => url u | None => "" end
              else ""
  | None => ""
  end.

Definition proxy_str_or_empty (proxies : option ProxyConfig)
  (f : ProxyConfig -> option string) : string :=
  match proxies with
  | Some p => if ProxyConfig_bool p && opt_str_truthy (f p)
              then match f p with Some s => s | None => "" end
              else ""
  | None => ""
  end.

(** [_build_image_command]. *)
Definition _build_image_command (runner_info : RunnerApplication)
  (proxies : option ProxyConfig) : M (list string) :=
  docker_proxy_service_conf_content <- _generate_docker_proxy_unit_file proxies ;;
  let http_proxy := proxy_url_or_empty proxies http in
  let https_proxy := proxy_url_or_empty proxies https in
  let no_proxy := proxy_str_or_empty proxies no_proxy in
  docker_client_proxy_content <-
    _generate_docker_client_proxy_config_json http_proxy https_proxy no_proxy ;;
  ret ["/usr/bin/bash";
       BUILD_OPENSTACK_IMAGE_SCRIPT_FILENAME;
       download_url runner_info;
       http_proxy;
       https_proxy;
       no_proxy;
       docker_proxy_service_conf_content;
       docker_client_proxy_content].

(** [@dataclass class InstanceConfig]. *)
Record InstanceConfig : Type := {
  name : string;
  labels : list string;
  registration_token : string;
  github_path : GithubPath;
  openstack_image : Image
}.

(** [_get_supported_runner_arch]. *)
Definition _get_supported_runner_arch (arch : string) : result string :=
  if String.eqb arch "x64" then Ok "amd64"
  else if String.eqb arch "arm64" then Ok "arm64"
  else Err (UnsupportedArchitectureError arch).

Definition lift {A : Type} (r : result A) : M A := fun w => (r, w).

(** The [for existing_image in ...] loop of [build_image]. *)
Fixpoint delete_existing_images (conn : Connection) (existing : list Image) : M unit :=
  match existing with
  | [] => ret tt
  | existing_image :: rest =>
      deleted <- delete_image conn (image_id existing_image) true ;;
      if negb deleted
      then raise (OpenstackImageBuildError
                    "Failed to delete duplicate image on Openstack." None)
      else delete_existing_images conn rest
  end.

(** The body of the second [try] of [build_image]: the command is built
    and run. *)
Definition build_image_run_script (runner_application : RunnerApplication)
  (proxies : option ProxyConfig) : M (string * Z) :=
  cmd <- _build_image_command runner_application proxies ;;
  execute_command cmd true.

(** The fourth [try] of [build_image], with its handler: the cloud phase. *)
Definition build_image_upload (cloud_config : CloudConfig) (image_arch : string) : M string :=
  try_except
    (conn <- _create_connection cloud_config ;;
     existing <- search_images conn IMAGE_NAME ;;
     delete_existing_images conn existing ;;;
     image <- create_image conn IMAGE_NAME (IMAGE_PATH_TMPL image_arch) true ;;
     ret (image_id image))
    (fun exc =>
       if is_OpenStackCloudException exc
       then raise (OpenstackImageBuildError "Failed to upload image." (Some exc))
       else raise exc).

(** [build_image]; the methods of [github_client] are calls to the world. *)
Definition build_image (arch : string) (cloud_config : CloudConfig)
  (path : GithubPath) (proxies : option ProxyConfig) : M string :=
  runner_application <-
    try_except (get_runner_application path arch)
      (fun exc =>
         if is_RunnerBinaryError exc
         then raise (OpenstackImageBuildError "Failed to fetch runner application." (Some exc))
         else raise exc) ;;
  try_except (build_image_run_script runner_application proxies)
    (fun exc =>
       if is_SubprocessError exc
       then raise (OpenstackImageBuildError "Failed to build image." (Some exc))
       else raise exc) ;;;
  let runner_arch := architecture runner_application in
  image_arch <-
    try_except (lift (_get_supported_runner_arch runner_arch))
      (fun exc =>
         if is_UnsupportedArchitectureError exc
         then raise (OpenstackImageBuildError
                       ("Unsupported architecture " ++ runner_arch) (Some exc))
         else raise exc) ;;
  build_image_upload cloud_config image_arch.

(** [s.rsplit(sep, 1)] for a separator of one character: the text before
    the last separator and the text after it, if there is a separator. *)
Fixpoint rsplit1 (sep : ascii) (s : string) : option (string * string) :=
  match s with
  | EmptyString => None
  | String c rest =>
      match rsplit1 sep rest with
      | Some (before, after) => Some (String c before, after)
      | None => if Ascii.eqb c sep then Some (EmptyString, rest) else None
      end
  end.

(** [create_instance_config]. *)
Definition create_instance_config (unit_name : string) (openstack_image : Image)
  (path : GithubPath) : M InstanceConfig :=
  match rsplit1 "/" unit_name with
  | None => raise (ValueError "not enough values to unpack (expected 2, got 1)")
  | Some (app_name, unit_num) =>
      suffix <- token_hex 12 ;;
      registration_token <- get_runner_registration_token path ;;
      ret {| name := app_name ++ "-" ++ unit_num ++ "-" ++ suffix;
             labels := [app_name; "jammy"];
             registration_token := registration_token;
             github_path := path;
             openstack_image := openstack_image |}
  end.

(** [_generate_runner_env]. *)
Definition _generate_runner_env (templates_env : Environment)
  (proxies : option ProxyConfig) (dockerhub_mirror : option string)
  (ssh_debug_connections : option (list SSHDebugConnection)) : M string :=
  t <- get_template templates_env "env.j2" ;;
  ssh_debug_info <-
    match ssh_debug_connections with
    | Some (c :: others) => (chosen <- choice c others ;; ret (Some chosen))
    | Some [] | None => ret None
    end ;;
  render t [("proxies", TProxies proxies);
            ("pre_job_script", TStr "");
            ("dockerhub_mirror",
             TStr (if opt_str_truthy dockerhub_mirror
                   then match dockerhub_mirror with Some m => m | None => "" end
                   else ""));
            ("ssh_debug_info", TSshDebug ssh_debug_info)].

(** [_generate_cloud_init_userdata]. *)
Definition _generate_cloud_init_userdata (templates_env : Environment)
  (instance_config : InstanceConfig) (runner_env : string) : M string :=
  t <- get_template templates_env "openstack-userdata.sh.j2" ;;
  render t [("github_url", TStr ("https://github.com/" ++ path (github_path instance_config)));
            ("token", TStr (registration_token instance_config));
            ("instance_labels", TStr (String.concat "," (labels instance_config)));
            ("instance_name", TStr (name instance_config));
            ("env_contents", TStr runner_env)].

(** The body of [create_instance], before the decorator is applied. *)
Definition create_instance_wrapped (cloud_config : CloudConfig)
  (instance_config : InstanceConfig) (proxies : option ProxyConfig)
  (dockerhub_mirror : option string)
  (ssh_debug_connections : option (list SSHDebugConnection)) : M unit :=
  let environment := templates_environment in
  env_contents <-
    _generate_runner_env environment proxies dockerhub_mirror ssh_debug_connections ;;
  cloud_userdata <-
    _generate_cloud_init_userdata environment instance_config env_contents ;;
  try_except
    (conn <- _create_connection cloud_config ;;
     create_server conn (name instance_config) (openstack_image instance_config)
       "m1.small" cloud_userdata true)
    (fun exc =>
       if is_OpenStackCloudException exc
       then raise (InstanceLaunchError "Failed to launch instance." (Some exc))
       else raise exc).

(** Modelled from the spec: the delay that follows the current one in
    [utilities.retry], which is not among the sources: the current delay
    multiplied by [backoff], up to [max_delay]. *)
Definition next_delay (current_delay backoff : Z) (max_delay : option Z) : Z :=
  match max_delay with
  | Some ceiling => Z.min (current_delay * backoff) ceiling
  | None => current_delay * backoff
  end.

(** Modelled from the spec: the loop of [utilities.retry], which is not
    among the sources.  The operation is tried while tries remain; a
    success ends the loop; after a failed attempt that is not the last the
    loop sleeps for the current delay and goes on with the next delay; the
    failure of the last attempt is raised unchanged. *)
Fixpoint retry_loop {A : Type} (remain_tries : nat) (current_delay : Z)
  (max_delay : option Z) (backoff : Z) (func : M A) : M A :=
  match remain_tries with
  | O => raise (RuntimeError "Unreachable code of retry logic.")
  | S remaining =>
      try_except func
        (fun err =>
           match remaining with
           | O => raise err
           | S _ =>
               sleep current_delay ;;;
               retry_loop remaining (next_delay current_delay backoff max_delay)
                 max_delay backoff func
           end)
  end.

(** Modelled from the spec: [utilities.retry], the decorator applied to
    [create_instance]; openstack_manager.py imports it and it is not among
    the sources.  The decorated operation is tried up to [tries] times, the
    delay before a retry starting at [delay]. *)
Definition retry {A : Type} (tries : nat) (delay : Z) (max_delay : option Z)
  (backoff : Z) (func : M A) : M A :=
  retry_loop tries delay max_delay backoff func.

(** [@retry(tries=5, delay=5, max_delay=60, backoff=2, local_logger=logger)
    def create_instance]. *)
Definition create_instance (cloud_config : CloudConfig)
  (instance_config : InstanceConfig) (proxies : option ProxyConfig)
  (dockerhub_mirror : option string)
  (ssh_debug_connections : option (list SSHDebugConnection)) : M unit :=
  retry 5 5 (Some 60) 2
    (create_instance_wrapped cloud_config instance_config proxies
       dockerhub_mirror ssh_debug_connections).

(* ===================================================================== *)
(** * Test doubles                                                        *)
(* ===================================================================== *)

(** A stub given the answers that vary between the scenarios below; every
    other operation succeeds. *)
Definition stub_answering (application : result RunnerApplication)
  (script : result (string * Z))
  (deletion : list Call -> result bool)
  (server : list Call -> option exn) : Stub :=
  {| on_get_runner_application := fun _ => application;
     on_get_runner_registration_token := fun _ => Ok "registration-token";
     on_execute_command := fun _ => script;
     on_get_template := fun _ => None;
     on_render := fun _ => Ok "rendered";
     on_json_dumps := fun _ => "{}";
     on_token_hex := fun _ => "00112233445566778899aabb";
     on_choice := fun _ => 0%nat;
     on_connect := fun _ => None;
     on_search_images := fun _ => None;
     on_delete_image := deletion;
     on_create_image := fun _ => Ok "image-new";
     on_create_server := server |}.

Definition runner_application_of (arch : string) : RunnerApplication :=
  {| download_url := "https://example.com/actions-runner.tar.gz";
     architecture := arch |}.

Definition world_with (s : Stub) (store : list Image) : World :=
  {| calls := []; images := store; servers := []; log := []; stub := s |}.

Definition is_create_server_call (c : Call) : bool :=
  match c with create_server_call _ _ _ _ _ => true | _ => false end.

Definition cloud_error : exn := OpenStackCloudException "503 Service Unavailable".

(** The cloud refuses every server. *)
Definition server_always_fails : list Call -> option exn :=
  fun _ => Some cloud_error.

(** The cloud refuses a server until the [n]-th request. *)
Definition server_succeeds_at (n : nat) : list Call -> option exn :=
  fun history =>
    if (n <=? length (filter is_create_server_call history))%nat
    then None else Some cloud_error.

Definition one_cloud : CloudConfig := [("clouds", [("mycloud", [])])].
Definition no_clouds : CloudConfig := [("clouds", [])].

Definition two_jammy_images : list Image :=
  [{| image_id := "image-a"; image_name := "jammy" |};
   {| image_id := "image-b"; image_name := "jammy" |}].

Definition org_path : GithubPath := {| path := "canonical" |}.

(* ===================================================================== *)
(** * Sample values and vocabulary of the properties                      *)
(* ===================================================================== *)

(** Sample configurations. *)
Definition url_with_port : AnyHttpUrl :=
  {| url := "http://1.2.3.4:8080"; scheme := "http";
     host := Some "1.2.3.4"; port := Some "8080" |}.

Definition url_without_port : AnyHttpUrl :=
  {| url := "https://proxy.internal"; scheme := "https";
     host := Some "proxy.internal"; port := None |}.

Definition aproxy_args : ProxyConfigArgs :=
  {| arg_http := Some url_with_port; arg_https := Some url_without_port;
     arg_no_proxy := Some "localhost"; arg_use_aproxy := Some true |}.

Definition aproxy_cfg : ProxyConfig :=
  {| http := Some url_with_port; https := Some url_without_port;
     no_proxy := Some "localhost"; use_aproxy := true |}.

Definition https_only_args : ProxyConfigArgs :=
  {| arg_http := None; arg_https := Some url_without_port;
     arg_no_proxy := None; arg_use_aproxy := Some true |}.

Definition no_scheme_args (flag : option bool) : ProxyConfigArgs :=
  {| arg_http := None; arg_https := None;
     arg_no_proxy := Some "localhost,10.0.0.0/8"; arg_use_aproxy := flag |}.

Definition no_scheme_cfg : ProxyConfig :=
  {| http := None; https := None;
     no_proxy := Some "localhost,10.0.0.0/8"; use_aproxy := false |}.

(** Sample SSH debug connections. *)
Definition relay_args (port : option Z) (rsa ed25519 : string) : SSHDebugConnectionArgs :=
  {| arg_host := Some (IPv4Address 167772161);
     arg_port := port;
     arg_rsa_fingerprint := Some rsa;
     arg_ed25519_fingerprint := Some ed25519 |}.

Definition labelled_application : ApplicationConfiguration :=
  {| extra_labels := ["gpu"];
     service_config := {| proxy_config := None; dockerhub_mirror := None;
                          ssh_debug_connections := None |} |}.

Definition jammy_image : Image := {| image_id := "image-new"; image_name := "jammy" |}.

Definition quiet_world : World :=
  world_with (stub_answering (Ok (runner_application_of "x64")) (Ok ("", 0))
                (fun _ => Ok true) (fun _ => None)) [].

Definition is_cloud_call (c : Call) : bool :=
  match c with
  | connect_call _ | search_images_call _ | delete_image_call _ _
  | create_image_call _ _ _ | create_server_call _ _ _ _ _ => true
  | _ => false
  end.

Definition is_create_image_call (c : Call) : bool :=
  match c with create_image_call _ _ _ => true | _ => false end.

(** The command line is the build script run by bash. *)
Definition runs_build_script (c : Call) : bool :=
  match c with
  | execute_command_call (interpreter :: script :: _) true =>
      String.eqb interpreter "/usr/bin/bash"
      && String.eqb script BUILD_OPENSTACK_IMAGE_SCRIPT_FILENAME
  | _ => false
  end.

Definition mips_world : World :=
  world_with (stub_answering (Ok (runner_application_of "mips")) (Ok ("", 0))
                (fun _ => Ok true) (fun _ => None)) [].

Definition count_named (n : string) (store : list Image) : nat :=
  length (filter (fun i => String.eqb (image_name i) n) store).

Definition deletion_call (i : Image) : Call := delete_image_call (image_id i) true.

(** The image is designated by the id of one of the images found. *)
Definition matched_by (found : list Image) (i : Image) : bool :=
  existsb (fun x => image_matches (image_id x) i) found.

(** The cloud refuses to delete. *)
Definition refusing_world : World :=
  world_with (stub_answering (Ok (runner_application_of "x64")) (Ok ("", 0))
                (fun _ => Ok false) (fun _ => None)) two_jammy_images.

(** The cloud does all it is asked. *)
Definition obliging_world : World :=
  world_with (stub_answering (Ok (runner_application_of "x64")) (Ok ("", 0))
                (fun _ => Ok true) (fun _ => None)) two_jammy_images.

(** The delay slept after the failed attempt number [i] (from 0): 5, then
    doubled each time, never above 60. *)
Definition delay_before_retry (i : nat) : Z := Z.min (5 * 2 ^ Z.of_nat i) 60.

(** [runs] are the attempts of [func] made one after the other from the
    world [w], attempt number [i] first: each attempt but the last raised
    and was followed by the sleep of its rank, and the next attempt started
    in the world left by that sleep. *)
Fixpoint attempts_chain {A : Type} (func : M A) (i : nat) (w : World)
  (runs : list (result A * World)) : Prop :=
  match runs with
  | [] => False
  | run :: later =>
      func w = run /\
      match later with
      | [] => True
      | _ :: _ =>
          (exists e, fst run = inl e) /\
          attempts_chain func (S i) (snd (sleep (delay_before_retry i) (snd run))) later
      end
  end.

(** The seconds slept, in order. *)
Fixpoint sleeps (history : list Call) : list Z :=
  match history with
  | [] => []
  | sleep_call seconds :: rest => seconds :: sleeps rest
  | _ :: rest => sleeps rest
  end.

Definition runner_config : InstanceConfig :=
  {| name := "github-runner-0-00112233445566778899aabb";
     labels := ["github-runner"; "jammy"];
     registration_token := "registration-token";
     github_path := org_path;
     openstack_image := jammy_image |}.

Definition world_where_server (server : list Call -> option exn) : World :=
  world_with (stub_answering (Ok (runner_application_of "x64")) (Ok ("", 0))
                (fun _ => Ok true) server) [jammy_image].

(** The character occurs in the text. *)
Fixpoint contains_char (c : ascii) (s : string) : bool :=
  match s with
  | EmptyString => false
  | String c' rest => Ascii.eqb c' c || contains_char c rest
  end.

(** The text of an optional URL, empty when there is none. *)
Definition url_text (o : option AnyHttpUrl) : string :=
  match o with Some u => url u | None => "" end.

(** The text of an optional string, empty when there is none. *)
Definition str_text (o : option string) : string :=
  match o with Some s => s | None => "" end.

(** [list_projects].  The module takes the method [list_projects] of the
    connection from the SDK, [Unauthorized] from keystoneauth1 and
    [OpenStackUnauthorizedError] from [errors], none of them among the
    sources: they are parameters here.  The two [logger.debug] lines leave
    the world as it is. *)
Section ListProjects.

Variable Project : Type.
Variable conn_list_projects : Connection -> M (list Project).
Variable is_Unauthorized : exn -> bool.
Variable OpenStackUnauthorizedError : string -> option exn -> exn.

Definition list_projects (cloud_config : CloudConfig) : M (list Project) :=
  conn <- _create_connection cloud_config ;;
  try_except
    (projects <- conn_list_projects conn ;;
     ret projects)
    (fun exc =>
       if is_Unauthorized exc
       then raise (OpenStackUnauthorizedError "Unauthorized to connect to OpenStack."
                     (Some exc))
       else raise exc).

End ListProjects.

Definition other_suffix_world : World :=
  record_call (sleep_call 0) quiet_world.

Definition multiple_clouds_warning : string :=
  "Multiple clouds defined in clouds.yaml. Using the first one to connect.".

Definition fetch_failing_world : World :=
  world_with (stub_answering (Err (RunnerBinaryError "no runner for this architecture"))
                (Ok ("", 0)) (fun _ => Ok true) (fun _ => None)) two_jammy_images.

Definition script_failing_world : World :=
  world_with (stub_answering (Ok (runner_application_of "x64"))
                (Err (SubprocessError "exit code 1"))
                (fun _ => Ok true) (fun _ => None)) two_jammy_images.

Definition deletion_raising_world : World :=
  world_with (stub_answering (Ok (runner_application_of "x64")) (Ok ("", 0))
                (fun _ => Err cloud_error) (fun _ => None)) two_jammy_images.

Definition relay_one : SSHDebugConnection :=
  {| ssh_host := IPv4Address 167772161; ssh_port := 10022;
     rsa_fingerprint := "SHA256:aa"; ed25519_fingerprint := "SHA256:bb" |}.

Definition relay_two : SSHDebugConnection :=
  {| ssh_host := IPv4Address 167772162; ssh_port := 10022;
     rsa_fingerprint := "SHA256:cc"; ed25519_fingerprint := "SHA256:dd" |}.

(** Stand-ins for the exception classes and for a listing that is refused. *)
Definition unauthorized : exn := OtherException "keystoneauth1.exceptions.http.Unauthorized".

Definition sample_is_Unauthorized (e : exn) : bool :=
  match e with
  | OtherException kind => String.eqb kind "keystoneauth1.exceptions.http.Unauthorized"
  | _ => false
  end.

Definition sample_unauthorized_error (msg : string) (cause : option exn) : exn :=
  OtherException ("OpenStackUnauthorizedError: " ++ msg).

Definition refused_listing (conn : Connection) : M (list string) :=
  raise unauthorized.

(* ===================================================================== *)
(** * Properties of configuration/base.py                                 *)
(* ===================================================================== *)

Section ProxyConfigFacts.

Variable args : ProxyConfigArgs.
Variable cfg : ProxyConfig.
Hypothesis constructed : ProxyConfig_new args = Ok cfg.

(** A constructed configuration holds the given fields, its URLs passed
    validation and the validator of [use_aproxy] accepted the flag. *)
Lemma ProxyConfig_new_inv :
  http cfg = arg_http args /\ https cfg = arg_https args /\
  no_proxy cfg = arg_no_proxy args /\
  validate_optional_url (arg_http args) = Ok (arg_http args) /\
  validate_optional_url (arg_https args) = Ok (arg_https args) /\
  (use_aproxy cfg = true ->
   url_truthy (http cfg) || url_truthy (https cfg) = true).
Proof.
  revert constructed. unfold ProxyConfig_new.
  assert (Hv : forall v r, validate_optional_url v = inr r -> r = v).
  { intros [u|] r; simpl; [destruct (AnyHttpUrl_valid u)|]; unfold Ok, Err; congruence. }
  destruct (validate_optional_url (arg_http args)) as [e1|h] eqn:Eh;
    [discriminate|].
  destruct (validate_optional_url (arg_https args)) as [e2|hs] eqn:Ehs;
    [discriminate|].
  apply Hv in Eh, Ehs. subst h hs.
  destruct (arg_use_aproxy args) as [b|].
  - unfold check_use_aproxy, values_before_use_aproxy, values_get_truthy. simpl.
    destruct b; simpl.
    + destruct (url_truthy (arg_http args) || url_truthy (arg_https args)) eqn:Et;
        simpl; unfold Ok, Err; intros H; inversion H; subst; simpl.
      repeat split; auto.
    + unfold Ok; intros H; inversion H; subst; simpl.
      repeat split; auto; discriminate.
  - unfold Ok; intros H; inversion H; subst; simpl.
    repeat split; auto; discriminate.
Qed.

(** A URL held by a constructed configuration is valid. *)
Lemma constructed_http_valid u : http cfg = Some u -> AnyHttpUrl_valid u = true.
Proof.
  destruct ProxyConfig_new_inv as (Hh & _ & _ & Hv & _).
  intros Hu. rewrite Hh in Hu. rewrite Hu in Hv. simpl in Hv.
  destruct (AnyHttpUrl_valid u); [reflexivity | discriminate].
Qed.

Lemma constructed_https_valid u : https cfg = Some u -> AnyHttpUrl_valid u = true.
Proof.
  destruct ProxyConfig_new_inv as (_ & Hh & _ & _ & Hv & _).
  intros Hu. rewrite Hh in Hu. rewrite Hu in Hv. simpl in Hv.
  destruct (AnyHttpUrl_valid u); [reflexivity | discriminate].
Qed.

End ProxyConfigFacts.

(** What validity gives of the parts of a URL. *)
Lemma AnyHttpUrl_valid_parts u :
  AnyHttpUrl_valid u = true ->
  str_truthy (url u) = true /\
  (exists h, host u = Some h) /\
  opt_str_truthy (port u) = match port u with Some _ => true | None => false end.
Proof.
  unfold AnyHttpUrl_valid. intros H.
  repeat (apply andb_true_iff in H; destruct H as [H ?]).
  split; [assumption|]. split.
  - destruct (host u) as [h|]; [eauto | discriminate].
  - destruct (port u) as [p|]; simpl; [|reflexivity].
    match goal with Hp : _ && _ = true |- _ => apply andb_true_iff in Hp; apply Hp end.
Qed.

(** The URL [self.http or self.https] of a constructed configuration: the
    http one when it is set, the https one otherwise. *)
Lemma url_or_constructed args cfg :
  ProxyConfig_new args = Ok cfg ->
  url_or (http cfg) (https cfg) =
    match http cfg with Some u => Some u | None => https cfg end.
Proof.
  intros Hc. unfold url_or. destruct (http cfg) as [u|] eqn:Hu; simpl; [|reflexivity].
  pose proof (constructed_http_valid args cfg Hc u Hu) as Hv.
  apply AnyHttpUrl_valid_parts in Hv. destruct Hv as (-> & _). reflexivity.
Qed.

(** The address built from a valid URL. *)
Lemma aproxy_address_of_url cfg u :
  use_aproxy cfg = true ->
  url_or (http cfg) (https cfg) = Some u ->
  AnyHttpUrl_valid u = true ->
  exists h, host u = Some h /\
    aproxy_address cfg =
      Ok (Some (match port u with Some p => h ++ ":" ++ p | None => h end)).
Proof.
  intros Hu Hor Hv. unfold aproxy_address. rewrite Hu, Hor.
  apply AnyHttpUrl_valid_parts in Hv. destruct Hv as (_ & (h & Hh) & Hp).
  exists h. split; [assumption|]. rewrite Hh, Hp.
  destruct (port u); reflexivity.
Qed.

(** The URL the address of a constructed configuration is taken from. *)
Lemma chosen_url_constructed args cfg :
  ProxyConfig_new args = Ok cfg ->
  use_aproxy cfg = true ->
  exists u,
    (http cfg = Some u \/ (http cfg = None /\ https cfg = Some u)) /\
    url_or (http cfg) (https cfg) = Some u /\ AnyHttpUrl_valid u = true.
Proof.
  intros Hc Hu.
  pose proof (url_or_constructed args cfg Hc) as Hor.
  destruct (ProxyConfig_new_inv args cfg Hc) as (_ & _ & _ & _ & _ & Ht).
  specialize (Ht Hu).
  destruct (http cfg) as [u|] eqn:Eh.
  - exists u. repeat split; auto. eapply constructed_http_valid; eauto.
  - simpl in Ht. destruct (https cfg) as [u|] eqn:Ehs; [|discriminate].
    exists u. repeat split; auto. eapply constructed_https_valid; eauto.
Qed.

(** C5.  For a constructed [ProxyConfig]: when [use_aproxy] is true,
    [aproxy_address] is the host of the http URL if there is one and of the
    https URL otherwise, followed by a colon and the port exactly when that
    URL has a port; when [use_aproxy] is false, it is [None]. *)
Theorem aproxy_address_value (args : ProxyConfigArgs) (cfg : ProxyConfig) :
  ProxyConfig_new args = Ok cfg ->
  (use_aproxy cfg = true ->
   exists u h,
     (http cfg = Some u \/ (http cfg = None /\ https cfg = Some u)) /\
     host u = Some h /\
     aproxy_address cfg =
       Ok (Some (match port u with Some p => h ++ ":" ++ p | None => h end)))
  /\ (use_aproxy cfg = false -> aproxy_address cfg = Ok None).
Proof.
  intros Hc. split.
  - intros Hu.
    destruct (chosen_url_constructed args cfg Hc Hu) as (u & Hwhich & Hor & Hv).
    destruct (aproxy_address_of_url cfg u Hu Hor Hv) as (h & Hh & Ha).
    exists u, h. auto.
  - intros Hu. unfold aproxy_address. rewrite Hu. reflexivity.
Qed.

Example aproxy_address_with_port :
  aproxy_address aproxy_cfg = Ok (Some "1.2.3.4:8080").
Proof. reflexivity. Qed.

Example aproxy_address_without_port :
  match ProxyConfig_new https_only_args with
  | inr c => aproxy_address c = Ok (Some "proxy.internal")
  | inl _ => False
  end.
Proof. reflexivity. Qed.

Lemma aproxy_address_value_witness :
  ProxyConfig_new aproxy_args = Ok aproxy_cfg /\
  ((use_aproxy aproxy_cfg = true ->
    exists u h,
      (http aproxy_cfg = Some u \/ (http aproxy_cfg = None /\ https aproxy_cfg = Some u)) /\
      host u = Some h /\
      aproxy_address aproxy_cfg =
        Ok (Some (match port u with Some p => h ++ ":" ++ p | None => h end)))
   /\ (use_aproxy aproxy_cfg = false -> aproxy_address aproxy_cfg = Ok None)).
Proof.
  split; [reflexivity|].
  apply (aproxy_address_value aproxy_args aproxy_cfg). reflexivity.
Defined.

(** C6.  A construction with [use_aproxy] true and neither [http] nor
    [https] given fails with a validation error, and no constructed
    configuration has [use_aproxy] true with both URLs absent. *)
Theorem use_aproxy_requires_http_or_https (args : ProxyConfigArgs) :
  (arg_use_aproxy args = Some true ->
   arg_http args = None -> arg_https args = None ->
   exists msg, ProxyConfig_new args = Err (ValidationError msg))
  /\ (forall cfg, ProxyConfig_new args = Ok cfg ->
      use_aproxy cfg = true -> http cfg <> None \/ https cfg <> None).
Proof.
  split.
  - intros Hu Hh Hs. unfold ProxyConfig_new. rewrite Hu, Hh, Hs. simpl.
    eexists. reflexivity.
  - intros cfg Hc Hu.
    destruct (chosen_url_constructed args cfg Hc Hu) as (u & [H | [_ H]] & _);
      [left | right]; rewrite H; discriminate.
Qed.

Lemma use_aproxy_requires_http_or_https_witness :
  (exists msg, ProxyConfig_new (no_scheme_args (Some true)) = Err (ValidationError msg))
  /\ (http aproxy_cfg <> None \/ https aproxy_cfg <> None).
Proof.
  split.
  - apply (proj1 (use_aproxy_requires_http_or_https (no_scheme_args (Some true))));
      reflexivity.
  - apply (proj2 (use_aproxy_requires_http_or_https aproxy_args) aproxy_cfg);
      reflexivity.
Defined.

(** C7.  A constructed [ProxyConfig] is truthy exactly when [http] or
    [https] is set; with neither set it is falsy whatever [no_proxy] and
    [use_aproxy] hold. *)
Theorem ProxyConfig_bool_iff (args : ProxyConfigArgs) (cfg : ProxyConfig) :
  ProxyConfig_new args = Ok cfg ->
  (ProxyConfig_bool cfg = true <-> (http cfg <> None \/ https cfg <> None))
  /\ (http cfg = None -> https cfg = None -> ProxyConfig_bool cfg = false).
Proof.
  intros Hc. unfold ProxyConfig_bool. rewrite (url_or_constructed args cfg Hc).
  split.
  - destruct (http cfg) as [u|] eqn:Hu.
    + pose proof (constructed_http_valid args cfg Hc u Hu) as Hv.
      apply AnyHttpUrl_valid_parts in Hv. destruct Hv as (Ht & _). simpl.
      rewrite Ht. split; [left; discriminate | reflexivity].
    + destruct (https cfg) as [u|] eqn:Hs.
      * pose proof (constructed_https_valid args cfg Hc u Hs) as Hv.
        apply AnyHttpUrl_valid_parts in Hv. destruct Hv as (Ht & _). simpl.
        rewrite Ht. split; [right; discriminate | reflexivity].
      * simpl. split; [discriminate | intros [H | H]; congruence].
  - intros -> ->. reflexivity.
Qed.

Lemma ProxyConfig_bool_iff_witness :
  ProxyConfig_new (no_scheme_args (Some false)) = Ok no_scheme_cfg /\
  ProxyConfig_bool no_scheme_cfg = false /\
  (ProxyConfig_bool aproxy_cfg = true <->
   (http aproxy_cfg <> None \/ https aproxy_cfg <> None)).
Proof.
  split; [reflexivity|]. split.
  - apply (proj2 (ProxyConfig_bool_iff (no_scheme_args (Some false)) no_scheme_cfg
                    eq_refl)); reflexivity.
  - apply (proj1 (ProxyConfig_bool_iff aproxy_args aproxy_cfg eq_refl)).
Defined.

(** C10.  [aproxy_address] of a constructed [ProxyConfig] does not raise:
    it returns a string when [use_aproxy] is true and [None] when it is
    false. *)
Theorem aproxy_address_total (args : ProxyConfigArgs) (cfg : ProxyConfig) :
  ProxyConfig_new args = Ok cfg ->
  exists r, aproxy_address cfg = Ok r /\
    (use_aproxy cfg = true -> exists s, r = Some s) /\
    (use_aproxy cfg = false -> r = None).
Proof.
  intros Hc. destruct (use_aproxy cfg) eqn:Hu.
  - destruct (chosen_url_constructed args cfg Hc Hu) as (u & _ & Hor & Hv).
    destruct (aproxy_address_of_url cfg u Hu Hor Hv) as (h & _ & Ha).
    eexists. split; [exact Ha|]. split; [eauto | discriminate].
  - exists None. unfold aproxy_address. rewrite Hu.
    split; [reflexivity|]. split; [discriminate | reflexivity].
Qed.

Lemma aproxy_address_total_witness :
  exists r, aproxy_address aproxy_cfg = Ok r /\
    (use_aproxy aproxy_cfg = true -> exists s, r = Some s) /\
    (use_aproxy aproxy_cfg = false -> r = None).
Proof.
  apply (aproxy_address_total aproxy_args aproxy_cfg). reflexivity.
Defined.

(** Outside construction the assertion can fail: the record type itself
    does not exclude [use_aproxy] without a URL. *)
Example aproxy_address_unvalidated :
  aproxy_address {| http := None; https := None; no_proxy := None; use_aproxy := true |}
  = Err AssertionError.
Proof. reflexivity. Qed.

(** A given port is checked against the range, and the fingerprints
    against the pattern. *)
Lemma SSHDebugConnection_new_given_port args p c :
  arg_port args = Some p ->
  SSHDebugConnection_new args = Ok c ->
  1 <= ssh_port c <= 65535 /\
  String.prefix "SHA256:" (rsa_fingerprint c) = true /\
  String.prefix "SHA256:" (ed25519_fingerprint c) = true /\
  ssh_port c = p /\
  arg_rsa_fingerprint args = Some (rsa_fingerprint c) /\
  arg_ed25519_fingerprint args = Some (ed25519_fingerprint c).
Proof.
  intros Hp. unfold SSHDebugConnection_new, validate_port, validate_fingerprint,
    validate_host, fingerprint_pattern_matches. rewrite Hp.
  destruct (arg_host args) as [a|]; [|discriminate].
  destruct (IPvAnyAddress_valid a); [|discriminate].
  destruct ((0 <? p) && (p <=? 65535)) eqn:Hr; [|discriminate].
  destruct (arg_rsa_fingerprint args) as [r|]; [|discriminate].
  destruct (String.prefix "SHA256:" r) eqn:Hrsa; [|discriminate].
  destruct (arg_ed25519_fingerprint args) as [e|]; [|discriminate].
  destruct (String.prefix "SHA256:" e) eqn:Hed; [|discriminate].
  unfold Ok. intros H. inversion H; subst; simpl.
  apply andb_true_iff in Hr. destruct Hr as [H1 H2].
  apply Z.ltb_lt in H1. apply Z.leb_le in H2.
  repeat split; auto; lia.
Qed.

Example SSHDebugConnection_bad_fingerprint :
  SSHDebugConnection_new (relay_args (Some 22) "MD5:aa" "SHA256:bb")
  = Err (ValidationError "rsa_fingerprint").
Proof. reflexivity. Qed.

Example SSHDebugConnection_bad_port :
  SSHDebugConnection_new (relay_args (Some 65536) "SHA256:aa" "SHA256:bb")
  = Err (ValidationError "port").
Proof. reflexivity. Qed.

(** C8.  A construction that leaves [port] out succeeds with the default
    port 0, outside 1..65535: the default is not checked against the
    constraints declared next to it. *)
Theorem SSHDebugConnection_default_port :
  SSHDebugConnection_new (relay_args None "SHA256:aa" "SHA256:bb")
  = Ok {| ssh_host := IPv4Address 167772161; ssh_port := 0;
          rsa_fingerprint := "SHA256:aa"; ed25519_fingerprint := "SHA256:bb" |}
  /\ ~ (1 <= 0 <= 65535).
Proof. split; [reflexivity | lia]. Qed.

(* ===================================================================== *)
(** * Properties of openstack_cloud/openstack_manager.py                  *)
(* ===================================================================== *)

(** ** [_create_connection] *)

(** C3.  With a credential bundle that names no cloud, [_create_connection]
    raises the [IndexError] of [clouds[0]], whatever the world, and makes
    no call; the documented configuration error is not raised. *)
Theorem _create_connection_no_clouds (w : World) :
  _create_connection no_clouds w = (Err (IndexError "list index out of range"), w).
Proof. reflexivity. Qed.

(** [build_image] lets that [IndexError] through. *)
Example build_image_no_clouds :
  fst (build_image "x64" no_clouds org_path None
         (world_with (stub_answering (Ok (runner_application_of "x64")) (Ok ("", 0))
                        (fun _ => Ok true) (fun _ => None)) []))
  = Err (IndexError "list index out of range").
Proof. reflexivity. Qed.

(** With one cloud or more the first one is connected to. *)
Lemma _create_connection_first cloud entry others (w : World) :
  on_connect (stub w) (calls w ++ [connect_call cloud]) = None ->
  fst (_create_connection [("clouds", (cloud, entry) :: others)] w)
  = Ok {| connection_cloud := cloud |}.
Proof.
  intros H. unfold _create_connection. simpl.
  destruct others; cbv [bind logger_warning ret openstack_connect external
    record_call add_log raise_or]; simpl; rewrite H; reflexivity.
Qed.

(** ** [create_instance_config] *)

(** C9, as stated, fails: with [extra_labels = ["gpu"]] configured, the
    instance configuration made for unit [github-runner/0] does not carry
    the label [gpu]. *)
Lemma extra_labels_not_in_instance_config :
  exists ic w',
    create_instance_config "github-runner/0" jammy_image org_path quiet_world = (Ok ic, w') /\
    In "gpu" (extra_labels labelled_application) /\
    ~ In "gpu" (labels ic).
Proof.
  eexists. eexists. split; [reflexivity|]. split; [left; reflexivity|].
  simpl. intros [H | [H | []]]; discriminate.
Qed.

(** C9, amended.  The labels of an [InstanceConfig] made by
    [create_instance_config] are the application name, which is the text of
    the unit name before its last [/], and [jammy]; nothing else. *)
Theorem create_instance_config_labels
  (unit_name : string) (image : Image) (p : GithubPath) (w w' : World)
  (ic : InstanceConfig) :
  create_instance_config unit_name image p w = (Ok ic, w') ->
  exists app_name unit_num,
    rsplit1 "/" unit_name = Some (app_name, unit_num) /\
    labels ic = [app_name; "jammy"].
Proof.
  unfold create_instance_config.
  destruct (rsplit1 "/" unit_name) as [[app_name unit_num]|]; [|discriminate].
  cbv [bind token_hex get_runner_registration_token external ret no_effect Ok].
  destruct (on_get_runner_registration_token _ _); [discriminate|].
  intros H. inversion H; subst. exists app_name, unit_num. auto.
Qed.

Lemma create_instance_config_labels_witness :
  exists app_name unit_num,
    rsplit1 "/" "github-runner/0" = Some (app_name, unit_num) /\
    labels {| name := "github-runner-0-00112233445566778899aabb";
              labels := ["github-runner"; "jammy"];
              registration_token := "registration-token";
              github_path := org_path;
              openstack_image := jammy_image |} = [app_name; "jammy"].
Proof.
  eapply (create_instance_config_labels "github-runner/0" jammy_image org_path quiet_world).
  reflexivity.
Defined.

Example create_instance_config_without_slash :
  fst (create_instance_config "github-runner" jammy_image org_path quiet_world)
  = Err (ValueError "not enough values to unpack (expected 2, got 1)").
Proof. reflexivity. Qed.

(** ** [build_image] *)

Ltac step_world :=
  repeat match goal with
         | H : (_, _) = (_, _) |- _ => inversion H; subst; clear H
         | H : context [match ?x with _ => _ end] |- _ => destruct x eqn:?
         end.

Lemma get_runner_application_world p arch w r w' :
  get_runner_application p arch w = (r, w') ->
  w' = record_call (get_runner_application_call p arch) w.
Proof.
  unfold get_runner_application, external, no_effect. intros H. step_world; reflexivity.
Qed.

(** The build step calls the template engine and then, if the rendering
    went through, the build script; it makes no call to the cloud and
    leaves the image store alone. *)
Lemma build_image_run_script_world ra proxies w r w' :
  build_image_run_script ra proxies w = (r, w') ->
  images w' = images w /\ stub w' = stub w /\
  exists new,
    calls w' = (calls w ++ new)%list /\
    forallb (fun c => negb (is_cloud_call c)) new = true /\
    (forall out, r = inr out ->
     exists before script,
       new = (before ++ [script])%list /\ runs_build_script script = true).
Proof.
  unfold build_image_run_script, _build_image_command, _generate_docker_proxy_unit_file,
    _generate_docker_client_proxy_config_json, get_template, render, json_dumps,
    execute_command, external, bind, ret, no_effect, raise_or.
  intros H. step_world; simpl; repeat split; auto.
  all: try (eexists; split;
            [rewrite <- ?app_assoc; simpl; reflexivity
            |split; [reflexivity | try discriminate]]).
  all: intros out _; eexists [_; _], _; split; reflexivity.
Qed.

Lemma _get_supported_runner_arch_other arch :
  arch <> "x64" -> arch <> "arm64" ->
  _get_supported_runner_arch arch = Err (UnsupportedArchitectureError arch).
Proof.
  intros H1 H2. unfold _get_supported_runner_arch.
  apply String.eqb_neq in H1, H2. rewrite H1, H2. reflexivity.
Qed.

(** [build_image] once the metadata is fetched, for an architecture that
    is not supported: what is left is the build step and the translation of
    its failure or of the architecture error. *)
Lemma build_image_unsupported_unfold arch cc p proxies w ra w1 :
  get_runner_application p arch w = (Ok ra, w1) ->
  architecture ra <> "x64" -> architecture ra <> "arm64" ->
  build_image arch cc p proxies w =
    match build_image_run_script ra proxies w1 with
    | (inr _, w2) =>
        (Err (OpenstackImageBuildError ("Unsupported architecture " ++ architecture ra)
                (Some (UnsupportedArchitectureError (architecture ra)))), w2)
    | (inl e, w2) =>
        (Err (if is_SubprocessError e
              then OpenstackImageBuildError "Failed to build image." (Some e)
              else e), w2)
    end.
Proof.
  intros Hra H1 H2. unfold build_image. cbv [bind try_except].
  rewrite Hra. unfold Ok.
  destruct (build_image_run_script ra proxies w1) as [[e|out] w2].
  - destruct (is_SubprocessError e); reflexivity.
  - rewrite (_get_supported_runner_arch_other _ H1 H2). reflexivity.
Qed.

(** C2, as stated, fails: with the architecture [mips] in the metadata the
    call ends in the image build error, and the build script has been run
    by then. *)
Lemma unsupported_architecture_runs_build_script :
  fst (build_image "mips" one_cloud org_path None mips_world)
  = Err (OpenstackImageBuildError "Unsupported architecture mips"
           (Some (UnsupportedArchitectureError "mips")))
  /\ existsb runs_build_script
       (calls (snd (build_image "mips" one_cloud org_path None mips_world))) = true.
Proof. split; reflexivity. Qed.

(** C2, amended.  When the metadata reports an architecture other than
    [x64] and [arm64], [build_image] fails and makes no call to the cloud.
    The architecture is looked at after the build step: when that step
    returns, the build script has been run and the failure is the image
    build error around [UnsupportedArchitectureError], raised in the state
    the build step left; when that step raises [SubprocessError], the
    failure is the image build error of the build. *)
Theorem build_image_unsupported_architecture
  (arch : string) (cc : CloudConfig) (p : GithubPath) (proxies : option ProxyConfig)
  (w w1 : World) (ra : RunnerApplication) :
  get_runner_application p arch w = (Ok ra, w1) ->
  architecture ra <> "x64" -> architecture ra <> "arm64" ->
  exists new,
    calls (snd (build_image arch cc p proxies w)) = (calls w ++ new)%list /\
    forallb (fun c => negb (is_cloud_call c)) new = true /\
    images (snd (build_image arch cc p proxies w)) = images w /\
    (exists e, fst (build_image arch cc p proxies w) = Err e) /\
    (forall out w2,
       build_image_run_script ra proxies w1 = (Ok out, w2) ->
       build_image arch cc p proxies w =
         (Err (OpenstackImageBuildError ("Unsupported architecture " ++ architecture ra)
                 (Some (UnsupportedArchitectureError (architecture ra)))), w2)
       /\ existsb runs_build_script new = true) /\
    (forall e w2,
       build_image_run_script ra proxies w1 = (Err e, w2) ->
       is_SubprocessError e = true ->
       build_image arch cc p proxies w =
         (Err (OpenstackImageBuildError "Failed to build image." (Some e)), w2)).
Proof.
  intros Hra H1 H2.
  rewrite (build_image_unsupported_unfold arch cc p proxies w ra w1 Hra H1 H2).
  apply get_runner_application_world in Hra. subst w1.
  destruct (build_image_run_script ra proxies _) as [r w2] eqn:Hb.
  destruct (build_image_run_script_world _ _ _ _ _ Hb) as (Hi & _ & new & Hc & Hn & Hs).
  exists (get_runner_application_call p arch :: new).
  assert (Hcalls : calls w2 = (calls w ++ get_runner_application_call p arch :: new)%list).
  { rewrite Hc. simpl. rewrite <- app_assoc. reflexivity. }
  destruct r as [e|out]; simpl; (split; [exact Hcalls|]);
    (split; [exact Hn|]); (split; [exact Hi|]); (split; [eauto|]); split.
  - intros out w2' H. discriminate.
  - intros e' w2' H He. inversion H; subst. rewrite He. reflexivity.
  - intros out' w2' H. inversion H; subst. split; [reflexivity|].
    destruct (Hs _ eq_refl) as (before & script & -> & Hscript).
    rewrite existsb_app. simpl. rewrite Hscript.
    rewrite orb_true_r. reflexivity.
  - intros e w2' H. discriminate.
Qed.

Lemma build_image_unsupported_architecture_witness :
  exists new,
    calls (snd (build_image "mips" one_cloud org_path None mips_world))
    = (calls mips_world ++ new)%list /\
    forallb (fun c => negb (is_cloud_call c)) new = true.
Proof.
  destruct (build_image_unsupported_architecture "mips" one_cloud org_path None
              mips_world
              (record_call (get_runner_application_call org_path "mips") mips_world)
              (runner_application_of "mips"))
    as (new & Hc & Hn & _).
  - reflexivity.
  - discriminate.
  - discriminate.
  - exists new. split; assumption.
Defined.

(** ** The image store in [build_image] *)

Lemma filter_all {A : Type} (l : list A) : filter (fun _ => true) l = l.
Proof. induction l as [|a l IH]; simpl; [|rewrite IH]; reflexivity. Qed.

Lemma filter_twice {A : Type} (f g : A -> bool) (l : list A) :
  filter f (filter g l) = filter (fun a => g a && f a) l.
Proof.
  induction l as [|a l IH]; simpl; [reflexivity|].
  destruct (g a); simpl; [destruct (f a)|]; rewrite IH; reflexivity.
Qed.

Lemma count_named_filter_le n keep store :
  (count_named n (filter keep store) <= count_named n store)%nat.
Proof.
  unfold count_named. induction store as [|i store IH]; simpl; [lia|].
  destruct (keep i); simpl; destruct (String.eqb (image_name i) n); simpl; lia.
Qed.

Lemma count_named_filter_none n keep store :
  (forall i, In i store -> keep i = true -> String.eqb (image_name i) n = false) ->
  count_named n (filter keep store) = 0%nat.
Proof.
  unfold count_named. induction store as [|i store IH]; simpl; intros H; [reflexivity|].
  destruct (keep i) eqn:Hk; simpl.
  - rewrite (H i (or_introl eq_refl) Hk). apply IH. intros; apply H; auto.
  - apply IH. intros; apply H; auto.
Qed.

Lemma count_named_app n l1 l2 :
  count_named n (l1 ++ l2) = (count_named n l1 + count_named n l2)%nat.
Proof. unfold count_named. rewrite filter_app, length_app. reflexivity. Qed.

(** Once every image found under a name is deleted by its id, the store
    holds no image of that name. *)
Lemma no_image_named_left n store :
  count_named n
    (filter (fun i => negb (matched_by (filter (image_matches n) store) i)) store)
  = 0%nat.
Proof.
  apply count_named_filter_none. intros i Hin Hkeep.
  destruct (String.eqb (image_name i) n) eqn:Hn; [|reflexivity].
  exfalso. apply negb_true_iff in Hkeep.
  assert (Hm : matched_by (filter (image_matches n) store) i = true).
  { unfold matched_by. apply existsb_exists. exists i. split.
    - apply filter_In. split; [assumption|]. unfold image_matches.
      rewrite Hn. apply orb_true_r.
    - unfold image_matches. rewrite String.eqb_refl. reflexivity. }
  congruence.
Qed.

Lemma existsb_create_deletions l :
  existsb is_create_image_call (map deletion_call l) = false.
Proof. induction l; simpl; auto. Qed.

(** The loop of deletions: it deletes the images found in order, stops at
    the first deletion that raises or returns [False], and touches the
    store only by removing images. *)
Lemma delete_existing_images_world conn found :
  forall w r w',
    delete_existing_images conn found w = (r, w') ->
    stub w' = stub w /\
    exists k, (k <= length found)%nat /\
      calls w' = (calls w ++ map deletion_call (firstn k found))%list /\
      match r with
      | inr _ =>
          k = length found /\
          images w' = filter (fun i => negb (matched_by found i)) (images w)
      | inl e =>
          (0 < k)%nat /\
          (exists keep, images w' = filter keep (images w)) /\
          ((on_delete_image (stub w) (calls w') = inr false /\
            e = OpenstackImageBuildError
                  "Failed to delete duplicate image on Openstack." None)
           \/ on_delete_image (stub w) (calls w') = inl e)
      end.
Proof.
  induction found as [|x rest IH]; intros w r w' H.
  - inversion H; subst. split; [reflexivity|]. exists 0%nat. simpl.
    rewrite app_nil_r, filter_all. auto.
  - simpl in H. unfold bind, delete_image, external in H.
    set (w1 := record_call (delete_image_call (image_id x) true) w) in *.
    destruct (on_delete_image (stub w1) (calls w1)) as [e|[|]] eqn:Hans.
    + inversion H; subst. split; [reflexivity|]. exists 1%nat. simpl.
      repeat split; try lia; auto.
      * exists (fun _ => true). rewrite filter_all. reflexivity.
    + simpl in H.
      destruct (IH _ _ _ H) as (Hstub & k & Hk & Hcalls & Hr).
      split; [exact Hstub|]. exists (S k). simpl. split; [lia|]. split.
      { rewrite Hcalls. simpl. rewrite <- app_assoc. reflexivity. }
      destruct r as [e|u].
      * destruct Hr as (_ & (keep & Hkeep) & Hans'). split; [lia|]. split.
        { eexists. rewrite Hkeep. simpl. apply filter_twice. }
        exact Hans'.
      * destruct Hr as (-> & Himg). split; [reflexivity|].
        rewrite Himg. simpl. rewrite filter_twice.
        apply filter_ext. intros i. rewrite negb_orb. reflexivity.
    + simpl in H. inversion H; subst. split; [reflexivity|]. exists 1%nat. simpl.
      repeat split; try lia; auto.
      * exists (fun _ => true). rewrite filter_all. reflexivity.
Qed.

(** [_create_connection] either stops before any call, or makes the one
    call that connects. *)
Lemma _create_connection_world cc w r w' :
  _create_connection cc w = (r, w') ->
  images w' = images w /\ stub w' = stub w /\
  ((calls w' = calls w /\ exists e, r = inl e /\ is_OpenStackCloudException e = false)
   \/ exists cloud, calls w' = (calls w ++ [connect_call cloud])%list).
Proof.
  unfold _create_connection.
  destruct (dict_getitem cc "clouds") as [entries|].
  - destruct (dict_keys entries) as [|cloud others];
      cbv [bind logger_warning ret raise openstack_connect external raise_or no_effect];
      simpl.
    + intros H; inversion H; subst. repeat split. left. split; eauto.
    + intros H. step_world; simpl; repeat split; right; eexists; reflexivity.
  - unfold raise. intros H; inversion H; subst. repeat split. left. split; eauto.
Qed.

Lemma last_call_differs (l before : list Call) (a b : Call) :
  (l ++ [a])%list = (before ++ [b])%list -> a = b.
Proof. intros H. apply app_inj_tail in H. apply H. Qed.

(** The cloud phase of [build_image], from the state [w] it starts in. *)
Lemma build_image_upload_world cc image_arch w r w' :
  build_image_upload cc image_arch w = (r, w') ->
  exists new,
    calls w' = (calls w ++ new)%list /\
    match r with
    | inr new_id =>
        count_named IMAGE_NAME (images w') = 1%nat /\
        In {| image_id := new_id; image_name := IMAGE_NAME |} (images w') /\
        exists cloud,
          new = (connect_call cloud :: search_images_call IMAGE_NAME ::
                 map deletion_call (filter (image_matches IMAGE_NAME) (images w))
                 ++ [create_image_call IMAGE_NAME (IMAGE_PATH_TMPL image_arch) true])%list
    | inl e =>
        (count_named IMAGE_NAME (images w') <= count_named IMAGE_NAME (images w))%nat /\
        forall before id wait,
          new = (before ++ [delete_image_call id wait])%list ->
          existsb is_create_image_call new = false /\
          (on_delete_image (stub w) (calls w') = inr false ->
           e = OpenstackImageBuildError
                 "Failed to delete duplicate image on Openstack." None) /\
          (forall x, on_delete_image (stub w) (calls w') = inl x ->
                     is_OpenStackCloudException x = true ->
                     e = OpenstackImageBuildError "Failed to upload image." (Some x))
    end.
Proof.
  unfold build_image_upload, try_except. unfold bind at 1.
  destruct (_create_connection cc w) as [[e0|conn] w1] eqn:Hconn.
  - (* no connection *)
    apply _create_connection_world in Hconn.
    destruct Hconn as (Hi & Hs & [[Hc (e1 & He1 & Hnc)] | (cloud & Hc)]).
    + inversion He1; subst e1. rewrite Hnc. unfold raise.
      intros H; inversion H; subst. exists []. rewrite app_nil_r.
      split; [assumption|]. rewrite Hi. split; [lia|].
      intros before id wait Hnew. destruct before; discriminate.
    + intros H. exists [connect_call cloud].
      assert (w' = w1 /\ exists e, r = inl e) as [-> [e ->]].
      { destruct (is_OpenStackCloudException e0); unfold raise in H;
          inversion H; subst; eauto. }
      split; [assumption|]. rewrite Hi. split; [lia|].
      intros before id wait Hnew.
      apply (last_call_differs []) in Hnew. discriminate.
  - apply _create_connection_world in Hconn.
    destruct Hconn as (Hi & Hs & [[_ (e1 & He1 & _)] | (cloud & Hc)]);
      [discriminate|].
    unfold bind at 1. unfold search_images, external.
    set (w2 := record_call (search_images_call IMAGE_NAME) w1).
    assert (Hc2 : calls w2 = (calls w ++ [connect_call cloud; search_images_call IMAGE_NAME])%list).
    { unfold w2. simpl. rewrite Hc, <- app_assoc. reflexivity. }
    unfold raise_or, no_effect.
    destruct (on_search_images (stub w2) (calls w2)) as [e0|].
    + (* the search raises *)
      intros H. exists [connect_call cloud; search_images_call IMAGE_NAME].
      assert (w' = w2 /\ exists e, r = inl e) as [-> [e ->]].
      { destruct (is_OpenStackCloudException e0); unfold raise in H;
          inversion H; subst; eauto. }
      split; [assumption|]. simpl. rewrite Hi. split; [lia|].
      intros before id wait Hnew.
      apply (last_call_differs [_]) in Hnew. discriminate.
    + unfold bind at 1.
      destruct (delete_existing_images conn
                  (filter (image_matches IMAGE_NAME) (images w2)) w2)
        as [[e0|u] w3] eqn:Hloop.
      * (* a deletion fails *)
        apply delete_existing_images_world in Hloop.
        destruct Hloop as (Hs3 & k & Hk & Hc3 & Hk0 & (keep & Hkeep) & Hans).
        intros H.
        exists (connect_call cloud :: search_images_call IMAGE_NAME ::
                map deletion_call (firstn k (filter (image_matches IMAGE_NAME) (images w2)))).
        assert (Hw : w' = w3).
        { destruct (is_OpenStackCloudException e0); unfold raise in H;
            inversion H; reflexivity. }
        subst w'.
        assert (Hst : stub w2 = stub w) by (unfold w2; simpl; exact Hs).
        rewrite Hst in Hans.
        split. { rewrite Hc3, Hc2, <- app_assoc. reflexivity. }
        destruct r as [e|out].
        2:{ destruct (is_OpenStackCloudException e0); unfold raise in H; inversion H. }
        split.
        { rewrite Hkeep. simpl. rewrite Hi. apply count_named_filter_le. }
        intros before id wait Hnew. split.
        { simpl. apply existsb_create_deletions. }
        destruct Hans as [[Hfalse ->] | Hraise].
        -- simpl in H. unfold raise in H. inversion H; subst.
           split; [reflexivity|]. intros x Hx. congruence.
        -- split; [intros Hx; congruence|].
           intros x Hx Hcloud. assert (x = e0) by congruence. subst x.
           rewrite Hcloud in H. unfold raise in H. inversion H; reflexivity.
      * apply delete_existing_images_world in Hloop.
        destruct Hloop as (Hs3 & k & Hk & Hc3 & -> & Himg).
        rewrite firstn_all in Hc3.
        unfold bind, create_image, external, ret.
        set (w4 := record_call _ w3).
        assert (Hc4 : calls w4 =
                        (calls w ++ connect_call cloud :: search_images_call IMAGE_NAME ::
                           map deletion_call (filter (image_matches IMAGE_NAME) (images w))
                           ++ [create_image_call IMAGE_NAME (IMAGE_PATH_TMPL image_arch) true])%list).
        { unfold w4. simpl. rewrite Hc3, Hc2. simpl. rewrite Hi.
          rewrite <- !app_assoc. reflexivity. }
        assert (Hi3 : images w3 =
                        filter (fun i => negb (matched_by
                                   (filter (image_matches IMAGE_NAME) (images w)) i))
                          (images w)).
        { rewrite Himg. simpl. rewrite Hi. reflexivity. }
        destruct (on_create_image (stub w4) (calls w4)) as [e0|new_id].
        -- (* the upload raises *)
           intros H. eexists.
           assert (w' = w4 /\ exists e, r = inl e) as [-> [e ->]].
           { destruct (is_OpenStackCloudException e0); unfold raise in H;
               inversion H; subst; eauto. }
           split; [exact Hc4|]. split.
           { unfold w4. simpl. rewrite Hi3. apply count_named_filter_le. }
           intros before id wait Hnew.
           change (connect_call cloud :: search_images_call IMAGE_NAME ::
                   map deletion_call (filter (image_matches IMAGE_NAME) (images w)) ++
                   [create_image_call IMAGE_NAME (IMAGE_PATH_TMPL image_arch) true])%list
             with ((connect_call cloud :: search_images_call IMAGE_NAME ::
                    map deletion_call (filter (image_matches IMAGE_NAME) (images w))) ++
                   [create_image_call IMAGE_NAME (IMAGE_PATH_TMPL image_arch) true])%list
             in Hnew.
           apply last_call_differs in Hnew. discriminate.
        -- intros H. inversion H; subst. eexists. split; [exact Hc4|].
           simpl. rewrite Hi3. split.
           { rewrite count_named_app, no_image_named_left. reflexivity. }
           split; [apply in_or_app; right; left; reflexivity|].
           exists cloud. reflexivity.
Qed.

(** C4, as stated, fails: the call below reaches the cloud phase, the first
    deletion returns [False], the call ends in the image build error, and
    the two images named [jammy] are still in the store. *)
Lemma two_images_left_after_failed_deletion :
  existsb is_cloud_call
    (calls (snd (build_image "x64" one_cloud org_path None refusing_world))) = true
  /\ fst (build_image "x64" one_cloud org_path None refusing_world)
     = Err (OpenstackImageBuildError
              "Failed to delete duplicate image on Openstack." None)
  /\ count_named IMAGE_NAME
       (images (snd (build_image "x64" one_cloud org_path None refusing_world)))
     = 2%nat.
Proof. repeat split; reflexivity. Qed.

(** C4, amended.  For a call of [build_image] that reaches the cloud phase
    (metadata fetched, build step done, architecture supported):
    - if it returns, the calls to the cloud were the connection, the
      search, one waited deletion for each image found under the fixed name,
      in order, and then the upload; the store then holds exactly one image
      of that name, the one whose id is returned;
    - if it fails, the store holds no more images of that name than
      before; and if the call it stopped at is a deletion, no upload was
      asked for, the failure being the image build error of the deletion
      when [delete_image] returned [False] and the image build error around
      the cloud exception when [delete_image] raised one. *)
Theorem build_image_store
  (arch : string) (cc : CloudConfig) (p : GithubPath) (proxies : option ProxyConfig)
  (w w1 w2 : World) (ra : RunnerApplication) (out : string * Z) (image_arch : string) :
  get_runner_application p arch w = (Ok ra, w1) ->
  build_image_run_script ra proxies w1 = (Ok out, w2) ->
  _get_supported_runner_arch (architecture ra) = Ok image_arch ->
  exists new,
    calls (snd (build_image arch cc p proxies w)) = (calls w2 ++ new)%list /\
    match fst (build_image arch cc p proxies w) with
    | inr new_id =>
        count_named IMAGE_NAME (images (snd (build_image arch cc p proxies w))) = 1%nat /\
        In {| image_id := new_id; image_name := IMAGE_NAME |}
           (images (snd (build_image arch cc p proxies w))) /\
        exists cloud,
          new = (connect_call cloud :: search_images_call IMAGE_NAME ::
                 map deletion_call (filter (image_matches IMAGE_NAME) (images w))
                 ++ [create_image_call IMAGE_NAME (IMAGE_PATH_TMPL image_arch) true])%list
    | inl e =>
        (count_named IMAGE_NAME (images (snd (build_image arch cc p proxies w)))
         <= count_named IMAGE_NAME (images w))%nat /\
        forall before id wait,
          new = (before ++ [delete_image_call id wait])%list ->
          existsb is_create_image_call new = false /\
          (on_delete_image (stub w)
             (calls (snd (build_image arch cc p proxies w))) = inr false ->
           e = OpenstackImageBuildError
                 "Failed to delete duplicate image on Openstack." None) /\
          (forall x,
             on_delete_image (stub w)
               (calls (snd (build_image arch cc p proxies w))) = inl x ->
             is_OpenStackCloudException x = true ->
             e = OpenstackImageBuildError "Failed to upload image." (Some x))
    end.
Proof.
  intros Hra Hb Harch.
  assert (Heq : build_image arch cc p proxies w = build_image_upload cc image_arch w2).
  { unfold build_image. cbv [bind try_except lift]. rewrite Hra. unfold Ok.
    unfold Ok in Hb. rewrite Hb. unfold Ok in Harch. rewrite Harch. reflexivity. }
  rewrite Heq.
  apply get_runner_application_world in Hra. subst w1.
  destruct (build_image_run_script_world _ _ _ _ _ Hb) as (Hi & Hs & _).
  simpl in Hi, Hs. rewrite <- Hi, <- Hs.
  destruct (build_image_upload cc image_arch w2) as [r w'] eqn:Hup.
  apply build_image_upload_world in Hup. exact Hup.
Qed.

Lemma build_image_store_witness :
  fst (build_image "x64" one_cloud org_path None obliging_world) = Ok "image-new"
  /\ count_named IMAGE_NAME
       (images (snd (build_image "x64" one_cloud org_path None obliging_world))) = 1%nat.
Proof.
  split; [reflexivity|].
  destruct (build_image_store "x64" one_cloud org_path None obliging_world
              (record_call (get_runner_application_call org_path "x64") obliging_world)
              (snd (build_image_run_script (runner_application_of "x64") None
                      (record_call (get_runner_application_call org_path "x64")
                         obliging_world)))
              (runner_application_of "x64") ("", 0) "amd64"
              eq_refl eq_refl eq_refl)
    as (new & _ & H).
  exact (proj1 H).
Defined.

(** Two builds in a row leave one image of the name after each. *)
Example build_image_twice :
  let first := build_image "x64" one_cloud org_path None (world_with (stub obliging_world) []) in
  let second := build_image "x64" one_cloud org_path None (snd first) in
  count_named IMAGE_NAME (images (snd first)) = 1%nat /\
  count_named IMAGE_NAME (images (snd second)) = 1%nat /\
  fst second = Ok "image-new".
Proof. repeat split; reflexivity. Qed.

(** ** [create_instance] and its retries *)

Lemma sleep_world seconds w :
  sleep seconds w = (inr tt, record_call (sleep_call seconds) w).
Proof. reflexivity. Qed.

Lemma next_delay_before_retry i :
  next_delay (delay_before_retry i) 2 (Some 60) = delay_before_retry (S i).
Proof.
  unfold next_delay, delay_before_retry.
  rewrite Nat2Z.inj_succ, Z.pow_succ_r by lia.
  generalize (2 ^ Z.of_nat i). intros q. lia.
Qed.

(** The loop of [retry] with the policy of [create_instance], for any
    number of tries: at most that many attempts, chained by the sleeps
    above; the result is the one of the last attempt made, and that attempt
    raised only if it was the last one allowed. *)
Lemma retry_loop_chain {A : Type} (func : M A) :
  forall (tries i : nat) (w : World),
    (0 < tries)%nat ->
    exists earlier final,
      (length (earlier ++ [final]) <= tries)%nat /\
      attempts_chain func i w (earlier ++ [final]) /\
      retry_loop tries (delay_before_retry i) (Some 60) 2 func w = final /\
      ((exists e, fst final = inl e) -> length (earlier ++ [final]) = tries).
Proof.
  induction tries as [|remaining IH]; intros i w Hpos; [lia|].
  cbn [retry_loop]. unfold try_except.
  destruct (func w) as [[e|a] w1] eqn:Hrun.
  - destruct remaining as [|remaining'].
    + exists [], (inl e, w1). simpl. repeat split; auto.
    + unfold bind. rewrite sleep_world, next_delay_before_retry.
      destruct (IH (S i) (record_call (sleep_call (delay_before_retry i)) w1))
        as (earlier & final & Hlen & Hchain & Hres & Hlast); [lia|].
      exists ((inl e, w1) :: earlier), final.
      split; [simpl in *; lia|]. split.
      { change (((inl e, w1) :: earlier) ++ [final])%list
          with ((inl e, w1) :: (earlier ++ [final]))%list.
        destruct (earlier ++ [final])%list as [|run later] eqn:Hruns;
          [destruct earlier; discriminate|].
        simpl. split; [assumption|]. split; [eauto|]. exact Hchain. }
      split; [exact Hres|].
      intros Hfail. specialize (Hlast Hfail). simpl in *. lia.
  - exists [], (inr a, w1). simpl. repeat split; auto.
    intros (e & He). discriminate.
Qed.

(** An attempt whose templates render and whose cloud calls raise a cloud
    exception fails with the launch error around that exception. *)
Lemma create_instance_wrapped_launch_error
  cc ic proxies mirror ssh w env_contents w1 cloud_userdata w2 msg w3 :
  _generate_runner_env templates_environment proxies mirror ssh w = (Ok env_contents, w1) ->
  _generate_cloud_init_userdata templates_environment ic env_contents w1
    = (Ok cloud_userdata, w2) ->
  (conn <- _create_connection cc ;;
   create_server conn (name ic) (openstack_image ic) "m1.small" cloud_userdata true) w2
    = (Err (OpenStackCloudException msg), w3) ->
  create_instance_wrapped cc ic proxies mirror ssh w
    = (Err (InstanceLaunchError "Failed to launch instance."
              (Some (OpenStackCloudException msg))), w3).
Proof.
  intros Henv Hdata Hcloud. unfold create_instance_wrapped.
  unfold bind at 1. rewrite Henv. unfold Ok.
  unfold bind at 1. unfold Ok in Hdata. rewrite Hdata.
  unfold try_except. unfold Err in Hcloud. rewrite Hcloud. reflexivity.
Qed.

(** C1.  A call of [create_instance] makes between one and five attempts
    of the whole operation.  An attempt that raises is followed, unless it
    is the fifth, by a sleep of 5 after the first attempt and of twice the
    previous delay, at most 60, after each later one, and then by the next
    attempt.  The call returns what the last attempt made returned, in the
    world that attempt left: the first success ends the call, and a failure
    is returned only from the fifth attempt, as that attempt raised it. *)
Theorem create_instance_retries
  (cc : CloudConfig) (ic : InstanceConfig) (proxies : option ProxyConfig)
  (mirror : option string) (ssh : option (list SSHDebugConnection)) (w : World) :
  exists earlier final,
    (1 <= length (earlier ++ [final]) <= 5)%nat /\
    attempts_chain (create_instance_wrapped cc ic proxies mirror ssh) 0 w
      (earlier ++ [final]) /\
    create_instance cc ic proxies mirror ssh w = final /\
    ((exists e, fst final = inl e) -> length (earlier ++ [final]) = 5%nat) /\
    map delay_before_retry [0; 1; 2; 3]%nat = [5; 10; 20; 40] /\
    (forall i, delay_before_retry i <= 60).
Proof.
  destruct (retry_loop_chain (create_instance_wrapped cc ic proxies mirror ssh) 5 0 w)
    as (earlier & final & Hlen & Hchain & Hres & Hlast); [lia|].
  change (delay_before_retry 0) with 5 in Hres.
  exists earlier, final. unfold create_instance, retry.
  rewrite Hres. repeat split; auto.
  - rewrite length_app. simpl. lia.
  - intros i. unfold delay_before_retry. lia.
Qed.

(** A cloud that always raises: five attempts, four sleeps, and the launch
    error of the fifth attempt. *)
Example create_instance_cloud_down :
  let run := create_instance one_cloud runner_config None None None
               (world_where_server server_always_fails) in
  fst run = Err (InstanceLaunchError "Failed to launch instance." (Some cloud_error))
  /\ length (filter is_create_server_call (calls (snd run))) = 5%nat
  /\ sleeps (calls (snd run)) = [5; 10; 20; 40]
  /\ servers (snd run) = [].
Proof. repeat split; reflexivity. Qed.

(** A cloud that accepts the third request: three attempts, two sleeps,
    one server. *)
Example create_instance_third_attempt :
  let run := create_instance one_cloud runner_config None None None
               (world_where_server (server_succeeds_at 3)) in
  fst run = Ok tt
  /\ length (filter is_create_server_call (calls (snd run))) = 3%nat
  /\ sleeps (calls (snd run)) = [5; 10]
  /\ length (servers (snd run)) = 1%nat.
Proof. repeat split; reflexivity. Qed.

(** With more tries than five the delays reach the ceiling. *)
Example delays_reach_ceiling :
  map delay_before_retry [0; 1; 2; 3; 4; 5]%nat = [5; 10; 20; 40; 60; 60].
Proof. reflexivity. Qed.

(** A failure that is not a cloud exception is retried as well, and comes
    out as it is. *)
Example create_instance_no_clouds :
  let run := create_instance no_clouds runner_config None None None
               (world_where_server (fun _ => None)) in
  fst run = Err (IndexError "list index out of range")
  /\ sleeps (calls (snd run)) = [5; 10; 20; 40].
Proof. repeat split; reflexivity. Qed.

(* ===================================================================== *)
(** * Further properties of configuration/base.py                         *)
(* ===================================================================== *)



(** X2.  A constructed [ProxyConfig] with [use_aproxy] true is truthy: the
    validator and [__bool__] ask for the same thing. *)
Theorem use_aproxy_is_truthy (args : ProxyConfigArgs) (cfg : ProxyConfig) :
  ProxyConfig_new args = Ok cfg ->
  use_aproxy cfg = true ->
  ProxyConfig_bool cfg = true.
Proof.
  intros Hc Hu.
  destruct (chosen_url_constructed args cfg Hc Hu) as (u & _ & Hor & Hv).
  unfold ProxyConfig_bool. rewrite Hor. simpl.
  apply AnyHttpUrl_valid_parts in Hv. apply Hv.
Qed.

Lemma use_aproxy_is_truthy_witness : ProxyConfig_bool aproxy_cfg = true.
Proof.
  apply (use_aproxy_is_truthy aproxy_args aproxy_cfg); reflexivity.
Defined.


(* ===================================================================== *)
(** * Further properties of openstack_cloud/openstack_manager.py          *)
(* ===================================================================== *)

(** ** Splitting the unit name *)

Lemma rsplit1_none sep s :
  rsplit1 sep s = None <-> contains_char sep s = false.
Proof.
  induction s as [|c rest IH]; simpl; [split; reflexivity|].
  destruct (rsplit1 sep rest) as [[before after]|].
  - split; [discriminate|]. intros H. apply orb_false_iff in H.
    destruct H as [_ H]. apply IH in H. discriminate.
  - destruct (Ascii.eqb c sep); simpl; [split; discriminate|].
    split; intros _; [apply IH|]; reflexivity.
Qed.

Lemma rsplit1_some sep s before after :
  rsplit1 sep s = Some (before, after) ->
  s = before ++ String sep after /\ contains_char sep after = false.
Proof.
  revert before after. induction s as [|c rest IH]; simpl; intros before after H;
    [discriminate|].
  destruct (rsplit1 sep rest) as [[b a]|] eqn:Hrest.
  - inversion H; subst. destruct (IH b after eq_refl) as [-> Hno].
    split; [reflexivity | assumption].
  - destruct (Ascii.eqb c sep) eqn:Hc; [|discriminate].
    inversion H; subst. apply Ascii.eqb_eq in Hc. subst c.
    split; [reflexivity|]. apply rsplit1_none. assumption.
Qed.

Lemma rsplit1_join sep before after :
  contains_char sep after = false ->
  rsplit1 sep (before ++ String sep after) = Some (before, after).
Proof.
  intros Hno. induction before as [|c before IH]; simpl.
  - apply rsplit1_none in Hno. rewrite Hno, Ascii.eqb_refl. reflexivity.
  - rewrite IH. reflexivity.
Qed.

Lemma append_same_prefix (a s1 s2 : string) : a ++ s1 = a ++ s2 -> s1 = s2.
Proof.
  induction a as [|c a IH]; simpl; intros H; [assumption|].
  inversion H. auto.
Qed.

Lemma calls_grow (l new : list Call) : new <> [] -> (l ++ new)%list <> l.
Proof.
  intros Hnew H. apply (f_equal (@length Call)) in H. rewrite length_app in H.
  destruct new; [congruence | simpl in H; lia].
Qed.

(** ** [create_instance_config] *)

(** X4.  [create_instance_config] returns a configuration exactly when the
    unit name is [app/unit] with no [/] in [unit] and the token issuer
    answers: the name is then [app-unit-suffix] with the 12 random bytes
    drawn first, the token is the one just issued, path and image are the
    arguments, and the two calls made are the draw and the token request. *)
Theorem create_instance_config_returns
  (unit_name : string) (image : Image) (p : GithubPath) (w w' : World)
  (ic : InstanceConfig) :
  create_instance_config unit_name image p w = (Ok ic, w') <->
  exists app_name unit_num,
    unit_name = app_name ++ "/" ++ unit_num /\
    contains_char "/" unit_num = false /\
    on_get_runner_registration_token (stub w)
      (calls w ++ [token_hex_call 12; get_runner_registration_token_call p])
    = Ok (registration_token ic) /\
    ic = {| name := app_name ++ "-" ++ unit_num ++ "-"
                    ++ on_token_hex (stub w) (calls w ++ [token_hex_call 12]);
            labels := [app_name; "jammy"];
            registration_token := registration_token ic;
            github_path := p;
            openstack_image := image |} /\
    w' = record_call (get_runner_registration_token_call p)
           (record_call (token_hex_call 12) w).
Proof.
  unfold create_instance_config. split.
  - destruct (rsplit1 "/" unit_name) as [[app_name unit_num]|] eqn:Hsplit;
      [|discriminate].
    apply rsplit1_some in Hsplit. destruct Hsplit as [-> Hno].
    cbv [bind token_hex get_runner_registration_token external ret no_effect Ok].
    simpl. rewrite <- app_assoc. simpl.
    destruct (on_get_runner_registration_token _ _) as [e|tok] eqn:Htok;
      [discriminate|].
    intros H. inversion H; subst. exists app_name, unit_num. simpl.
    repeat split; auto.
  - intros (app_name & unit_num & -> & Hno & Htok & Hic & ->).
    change (app_name ++ "/" ++ unit_num) with (app_name ++ String "/" unit_num).
    rewrite (rsplit1_join "/" app_name unit_num Hno).
    cbv [bind token_hex get_runner_registration_token external ret no_effect Ok].
    simpl. rewrite <- app_assoc. simpl. unfold Ok in Htok. rewrite Htok.
    destruct ic as [n l t g o]. simpl in Hic. inversion Hic; subst. reflexivity.
Qed.

(** X5.  A unit name without [/] makes [create_instance_config] raise the
    [ValueError] of the unpacking before any call: nothing is drawn and no
    token is requested. *)
Theorem create_instance_config_without_separator
  (unit_name : string) (image : Image) (p : GithubPath) (w : World) :
  contains_char "/" unit_name = false ->
  create_instance_config unit_name image p w
  = (Err (ValueError "not enough values to unpack (expected 2, got 1)"), w).
Proof.
  intros Hno. unfold create_instance_config.
  apply rsplit1_none in Hno. rewrite Hno. reflexivity.
Qed.

Lemma create_instance_config_without_separator_witness :
  create_instance_config "github-runner" jammy_image org_path quiet_world
  = (Err (ValueError "not enough values to unpack (expected 2, got 1)"), quiet_world).
Proof.
  apply (create_instance_config_without_separator "github-runner" jammy_image
           org_path quiet_world).
  reflexivity.
Defined.

(** X6.  Two configurations made for the same unit name have the same name
    exactly when the same random suffix was drawn for both. *)
Theorem create_instance_config_name_unique
  (unit_name : string) (image1 image2 : Image) (p1 p2 : GithubPath)
  (w1 w1' w2 w2' : World) (ic1 ic2 : InstanceConfig) :
  create_instance_config unit_name image1 p1 w1 = (Ok ic1, w1') ->
  create_instance_config unit_name image2 p2 w2 = (Ok ic2, w2') ->
  (name ic1 = name ic2 <->
   on_token_hex (stub w1) (calls w1 ++ [token_hex_call 12])
   = on_token_hex (stub w2) (calls w2 ++ [token_hex_call 12])).
Proof.
  unfold create_instance_config.
  destruct (rsplit1 "/" unit_name) as [[app_name unit_num]|]; [|discriminate].
  cbv [bind token_hex get_runner_registration_token external ret no_effect Ok].
  simpl.
  destruct (on_get_runner_registration_token (stub w1) _); [discriminate|].
  destruct (on_get_runner_registration_token (stub w2) _); [discriminate|].
  intros H1 H2. inversion H1; inversion H2; subst. simpl.
  split; [|intros ->; reflexivity].
  intros H. apply append_same_prefix in H. inversion H as [H'].
  apply append_same_prefix in H'. inversion H'. reflexivity.
Qed.

Lemma create_instance_config_name_unique_witness :
  name runner_config = name runner_config <->
  on_token_hex (stub quiet_world) (calls quiet_world ++ [token_hex_call 12])
  = on_token_hex (stub other_suffix_world) (calls other_suffix_world ++ [token_hex_call 12]).
Proof.
  eapply (create_instance_config_name_unique "github-runner/0" jammy_image jammy_image
            org_path org_path quiet_world _ other_suffix_world _
            runner_config runner_config); reflexivity.
Defined.

(** ** [_create_connection] *)

(** X7.  [_create_connection] makes at most one call, the connection to
    the first cloud named under [clouds]: without the key [clouds] it raises
    [KeyError], and with no cloud named [IndexError], both before any call;
    otherwise it connects once, returns the connection or raises what the
    connection raised, and has logged one warning exactly when more than one
    cloud is named.  It leaves images and servers alone. *)
Theorem _create_connection_outcome (cc : CloudConfig) (w w' : World)
  (r : result Connection) :
  _create_connection cc w = (r, w') ->
  images w' = images w /\ servers w' = servers w /\ stub w' = stub w /\
  match dict_getitem cc "clouds" with
  | None => r = Err (KeyError "clouds") /\ w' = w
  | Some [] => r = Err (IndexError "list index out of range") /\ w' = w
  | Some ((cloud, _) :: others) =>
      calls w' = (calls w ++ [connect_call cloud])%list /\
      log w' = (log w ++ match others with
                         | [] => []
                         | _ :: _ => [multiple_clouds_warning]
                         end)%list /\
      r = raise_or (on_connect (stub w) (calls w ++ [connect_call cloud]))
            {| connection_cloud := cloud |}
  end.
Proof.
  unfold _create_connection.
  destruct (dict_getitem cc "clouds") as [[|[cloud entry] others]|].
  - simpl. cbv [bind ret raise]. intros H; inversion H; subst. auto.
  - destruct others;
      cbv [bind logger_warning ret raise openstack_connect external raise_or no_effect];
      simpl; intros H;
      destruct (on_connect _ _); inversion H; subst; simpl;
      rewrite ?app_nil_r; auto 10.
  - unfold raise. intros H; inversion H; subst. auto.
Qed.

Lemma _create_connection_outcome_witness :
  calls (snd (_create_connection one_cloud quiet_world))
  = (calls quiet_world ++ [connect_call "mycloud"])%list.
Proof.
  destruct (_create_connection_outcome one_cloud quiet_world
              (snd (_create_connection one_cloud quiet_world))
              (fst (_create_connection one_cloud quiet_world)) eq_refl)
    as (_ & _ & _ & H).
  exact (proj1 H).
Defined.

(** ** The build command *)

(** X8.  [_generate_docker_client_proxy_config_json] makes no call and
    hands [json.dumps] a document whose only key is [proxies], holding the
    only key [default], under which an entry is present exactly for each
    of [httpProxy], [httpsProxy] and [noProxy] whose value is not empty,
    with that value. *)
Theorem docker_client_proxy_config_entries (http_proxy https_proxy no_proxy : string)
  (w : World) :
  exists entries,
    _generate_docker_client_proxy_config_json http_proxy https_proxy no_proxy w
    = (Ok (on_json_dumps (stub w)
             (JObj [("proxies", JObj [("default", JObj entries)])])), w) /\
    forall key value,
      In (key, value) entries <->
      exists text,
        value = JStr text /\ text <> "" /\
        ((key = "httpProxy" /\ text = http_proxy) \/
         (key = "httpsProxy" /\ text = https_proxy) \/
         (key = "noProxy" /\ text = no_proxy)).
Proof.
  unfold _generate_docker_client_proxy_config_json, json_dumps.
  eexists. split; [reflexivity|].
  intros key value. rewrite in_map_iff. split.
  - intros ([k v] & Hkv & Hin). simpl in Hkv. inversion Hkv; subst.
    apply filter_In in Hin. destruct Hin as [Hin Hv]. simpl in Hv.
    exists v. split; [reflexivity|]. split; [intros ->; discriminate|].
    simpl in Hin.
    destruct Hin as [H | [H | [H | []]]]; inversion H; subst; auto.
  - intros (text & -> & Hne & Hkey). exists (key, text). split; [reflexivity|].
    apply filter_In. split.
    + simpl. destruct Hkey as [[-> ->] | [[-> ->] | [-> ->]]]; auto.
    + simpl. destruct text; [congruence | reflexivity].
Qed.

(** X9.  When [proxies] is [None] or is falsy, which includes a
    configuration with [no_proxy] set and neither URL, the command built is
    bash, the script, the download URL, three empty proxy arguments, the
    rendered unit file and the JSON of a document with no entry under
    [default]: [no_proxy] is not passed on.  The unit file is rendered from
    [proxies] as given, by the only two calls made. *)
Theorem _build_image_command_without_proxy
  (runner_info : RunnerApplication) (proxies : option ProxyConfig)
  (w w' : World) (cmd : list string) :
  proxies_truthy proxies = false ->
  _build_image_command runner_info proxies w = (Ok cmd, w') ->
  exists unit_file,
    cmd = ["/usr/bin/bash"; BUILD_OPENSTACK_IMAGE_SCRIPT_FILENAME;
           download_url runner_info; ""; ""; ""; unit_file;
           on_json_dumps (stub w) (JObj [("proxies", JObj [("default", JObj [])])])]
    /\ calls w' = (calls w ++
                   [get_template_call "systemd-docker-proxy.j2";
                    render_call "systemd-docker-proxy.j2"
                      [("proxies", TProxies proxies)]])%list.
Proof.
  intros Hfalsy.
  assert (Hh : proxy_url_or_empty proxies http = "").
  { destruct proxies as [c|]; simpl in *; [rewrite Hfalsy|]; reflexivity. }
  assert (Hs : proxy_url_or_empty proxies https = "").
  { destruct proxies as [c|]; simpl in *; [rewrite Hfalsy|]; reflexivity. }
  assert (Hn : proxy_str_or_empty proxies no_proxy = "").
  { destruct proxies as [c|]; simpl in *; [rewrite Hfalsy|]; reflexivity. }
  unfold _build_image_command, _generate_docker_proxy_unit_file,
    _generate_docker_client_proxy_config_json, get_template, render, json_dumps,
    external, bind, ret, no_effect, raise_or.
  rewrite Hh, Hs, Hn. simpl.
  destruct (on_get_template _ _); [discriminate|].
  destruct (on_render _ _) as [e|unit_file]; [discriminate|].
  intros H. inversion H; subst. exists unit_file. split; [reflexivity|].
  simpl. rewrite <- app_assoc. reflexivity.
Qed.

Lemma _build_image_command_without_proxy_witness :
  exists unit_file,
    fst (_build_image_command (runner_application_of "x64") (Some no_scheme_cfg)
           quiet_world)
    = Ok ["/usr/bin/bash"; BUILD_OPENSTACK_IMAGE_SCRIPT_FILENAME;
          download_url (runner_application_of "x64"); ""; ""; ""; unit_file;
          on_json_dumps (stub quiet_world)
            (JObj [("proxies", JObj [("default", JObj [])])])].
Proof.
  destruct (_build_image_command_without_proxy (runner_application_of "x64")
              (Some no_scheme_cfg) quiet_world
              (snd (_build_image_command (runner_application_of "x64")
                      (Some no_scheme_cfg) quiet_world))
              ["/usr/bin/bash"; BUILD_OPENSTACK_IMAGE_SCRIPT_FILENAME;
               download_url (runner_application_of "x64"); ""; ""; ""; "rendered"; "{}"]
              eq_refl eq_refl)
    as (unit_file & Hcmd & _).
  exists unit_file. rewrite <- Hcmd. reflexivity.
Defined.

(** X10.  With a constructed [ProxyConfig] that is truthy, the three proxy
    arguments of the command are the text of the http URL, the text of the
    https URL and [no_proxy], each empty when the field is not set. *)
Theorem _build_image_command_with_proxy
  (runner_info : RunnerApplication) (args : ProxyConfigArgs) (cfg : ProxyConfig)
  (w w' : World) (cmd : list string) :
  ProxyConfig_new args = Ok cfg ->
  ProxyConfig_bool cfg = true ->
  _build_image_command runner_info (Some cfg) w = (Ok cmd, w') ->
  exists unit_file document,
    cmd = ["/usr/bin/bash"; BUILD_OPENSTACK_IMAGE_SCRIPT_FILENAME;
           download_url runner_info;
           url_text (http cfg); url_text (https cfg); str_text (no_proxy cfg);
           unit_file; document].
Proof.
  intros Hc Htruthy.
  assert (Hh : proxy_url_or_empty (Some cfg) http = url_text (http cfg)).
  { simpl. rewrite Htruthy. simpl. destruct (http cfg) as [u|] eqn:Hu; [|reflexivity].
    pose proof (constructed_http_valid args cfg Hc u Hu) as Hv.
    apply AnyHttpUrl_valid_parts in Hv. destruct Hv as (Ht & _).
    simpl. rewrite Ht. reflexivity. }
  assert (Hs : proxy_url_or_empty (Some cfg) https = url_text (https cfg)).
  { simpl. rewrite Htruthy. simpl. destruct (https cfg) as [u|] eqn:Hu; [|reflexivity].
    pose proof (constructed_https_valid args cfg Hc u Hu) as Hv.
    apply AnyHttpUrl_valid_parts in Hv. destruct Hv as (Ht & _).
    simpl. rewrite Ht. reflexivity. }
  assert (Hn : proxy_str_or_empty (Some cfg) no_proxy = str_text (no_proxy cfg)).
  { simpl. rewrite Htruthy. simpl. destruct (no_proxy cfg) as [[|c s]|]; reflexivity. }
  unfold _build_image_command, _generate_docker_proxy_unit_file,
    _generate_docker_client_proxy_config_json, get_template, render, json_dumps,
    external, bind, ret, no_effect, raise_or.
  rewrite Hh, Hs, Hn.
  destruct (on_get_template _ _); [discriminate|].
  destruct (on_render _ _) as [e|unit_file]; [discriminate|].
  intros H. inversion H; subst. eexists. eexists. reflexivity.
Qed.

Lemma _build_image_command_with_proxy_witness :
  exists unit_file document,
    fst (_build_image_command (runner_application_of "x64") (Some aproxy_cfg) quiet_world)
    = Ok ["/usr/bin/bash"; BUILD_OPENSTACK_IMAGE_SCRIPT_FILENAME;
          download_url (runner_application_of "x64");
          "http://1.2.3.4:8080"; "https://proxy.internal"; "localhost";
          unit_file; document].
Proof.
  destruct (_build_image_command_with_proxy (runner_application_of "x64")
              aproxy_args aproxy_cfg quiet_world
              (snd (_build_image_command (runner_application_of "x64")
                      (Some aproxy_cfg) quiet_world))
              ["/usr/bin/bash"; BUILD_OPENSTACK_IMAGE_SCRIPT_FILENAME;
               download_url (runner_application_of "x64");
               "http://1.2.3.4:8080"; "https://proxy.internal"; "localhost";
               "rendered"; "{}"]
              eq_refl eq_refl eq_refl)
    as (unit_file & document & Hcmd).
  inversion Hcmd. exists "rendered", "{}". reflexivity.
Defined.

(** ** [build_image] before and through the cloud phase *)

(** X11.  When the metadata cannot be fetched, [build_image] stops after
    that one call: a [RunnerBinaryError] comes out as the image build error
    around it, any other exception as it is; no script is run and the cloud
    is not called. *)
Theorem build_image_fetch_failure
  (arch : string) (cc : CloudConfig) (p : GithubPath) (proxies : option ProxyConfig)
  (w : World) (e : exn) :
  on_get_runner_application (stub w) (calls w ++ [get_runner_application_call p arch])
  = inl e ->
  build_image arch cc p proxies w
  = (Err (if is_RunnerBinaryError e
          then OpenstackImageBuildError "Failed to fetch runner application." (Some e)
          else e),
     record_call (get_runner_application_call p arch) w).
Proof.
  intros H. unfold build_image. cbv [bind try_except get_runner_application external].
  simpl. rewrite H. destruct (is_RunnerBinaryError e); reflexivity.
Qed.

Lemma build_image_fetch_failure_witness :
  build_image "x64" one_cloud org_path None fetch_failing_world
  = (Err (OpenstackImageBuildError "Failed to fetch runner application."
            (Some (RunnerBinaryError "no runner for this architecture"))),
     record_call (get_runner_application_call org_path "x64") fetch_failing_world).
Proof.
  apply (build_image_fetch_failure "x64" one_cloud org_path None fetch_failing_world
           (RunnerBinaryError "no runner for this architecture")).
  reflexivity.
Defined.

(** X12.  When the build step raises, whatever the architecture,
    [build_image] stops there: a [SubprocessError] comes out as the image
    build error of the build, any other exception as it is; the cloud has
    not been called and the image store is as it was. *)
Theorem build_image_script_failure
  (arch : string) (cc : CloudConfig) (p : GithubPath) (proxies : option ProxyConfig)
  (w w1 w2 : World) (ra : RunnerApplication) (e : exn) :
  get_runner_application p arch w = (Ok ra, w1) ->
  build_image_run_script ra proxies w1 = (Err e, w2) ->
  build_image arch cc p proxies w
  = (Err (if is_SubprocessError e
          then OpenstackImageBuildError "Failed to build image." (Some e)
          else e), w2)
  /\ images w2 = images w
  /\ exists new, calls w2 = (calls w ++ new)%list /\
                 forallb (fun c => negb (is_cloud_call c)) new = true.
Proof.
  intros Hra Hb. split.
  - unfold build_image. cbv [bind try_except]. rewrite Hra. unfold Ok.
    unfold Err in Hb. rewrite Hb. destruct (is_SubprocessError e); reflexivity.
  - apply get_runner_application_world in Hra. subst w1.
    destruct (build_image_run_script_world _ _ _ _ _ Hb) as (Hi & _ & new & Hc & Hn & _).
    split; [exact Hi|].
    exists (get_runner_application_call p arch :: new). split; [|exact Hn].
    rewrite Hc. simpl. rewrite <- app_assoc. reflexivity.
Qed.

Lemma build_image_script_failure_witness :
  fst (build_image "x64" one_cloud org_path None script_failing_world)
  = Err (OpenstackImageBuildError "Failed to build image."
           (Some (SubprocessError "exit code 1")))
  /\ images (snd (build_image "x64" one_cloud org_path None script_failing_world))
     = two_jammy_images.
Proof.
  destruct (build_image_script_failure "x64" one_cloud org_path None
              script_failing_world
              (record_call (get_runner_application_call org_path "x64")
                 script_failing_world)
              (snd (build_image_run_script (runner_application_of "x64") None
                      (record_call (get_runner_application_call org_path "x64")
                         script_failing_world)))
              (runner_application_of "x64") (SubprocessError "exit code 1")
              eq_refl eq_refl)
    as (Hrun & Himages & _).
  rewrite Hrun. split; [reflexivity | exact Himages].
Defined.

(** X13.  [build_image] returns an id only if the metadata reports [x64]
    or [arm64]; the last call made is then the upload, under the name
    [jammy] and with [wait], of the image file of the architecture [amd64]
    for [x64] and [arm64] for [arm64], and the image of the returned id is
    in the store. *)
Theorem build_image_returns
  (arch : string) (cc : CloudConfig) (p : GithubPath) (proxies : option ProxyConfig)
  (w w' : World) (new_id : string) :
  build_image arch cc p proxies w = (Ok new_id, w') ->
  exists ra image_arch before,
    on_get_runner_application (stub w) (calls w ++ [get_runner_application_call p arch])
    = Ok ra /\
    ((architecture ra = "x64" /\ image_arch = "amd64") \/
     (architecture ra = "arm64" /\ image_arch = "arm64")) /\
    calls w' = (before ++
                [create_image_call "jammy"
                   ("jammy-server-cloudimg-" ++ image_arch ++ "-compressed.img") true])%list /\
    In {| image_id := new_id; image_name := "jammy" |} (images w').
Proof.
  unfold build_image. cbv [bind try_except].
  destruct (get_runner_application p arch w) as [[e|ra] w1] eqn:Hra.
  { destruct (is_RunnerBinaryError e); discriminate. }
  destruct (build_image_run_script ra proxies w1) as [[e|out] w2] eqn:Hb.
  { destruct (is_SubprocessError e); discriminate. }
  unfold lift, _get_supported_runner_arch.
  assert (Hans : on_get_runner_application (stub w)
                   (calls w ++ [get_runner_application_call p arch]) = Ok ra).
  { unfold get_runner_application, external in Hra. simpl in Hra.
    destruct (on_get_runner_application _ _); inversion Hra; reflexivity. }
  destruct (String.eqb (architecture ra) "x64") eqn:Hx.
  - intros Hup. apply build_image_upload_world in Hup.
    destruct Hup as (new & Hc & _ & Hin & cloud & Hnew).
    apply String.eqb_eq in Hx.
    exists ra, "amd64". eexists. split; [exact Hans|]. split; [auto|].
    split; [|exact Hin]. rewrite Hc, Hnew.
    rewrite app_comm_cons, app_comm_cons, app_assoc. reflexivity.
  - destruct (String.eqb (architecture ra) "arm64") eqn:Ha; [|discriminate].
    intros Hup. apply build_image_upload_world in Hup.
    destruct Hup as (new & Hc & _ & Hin & cloud & Hnew).
    apply String.eqb_eq in Ha.
    exists ra, "arm64". eexists. split; [exact Hans|]. split; [auto|].
    split; [|exact Hin]. rewrite Hc, Hnew.
    rewrite app_comm_cons, app_comm_cons, app_assoc. reflexivity.
Qed.

Lemma build_image_returns_witness :
  exists ra image_arch before,
    on_get_runner_application (stub obliging_world)
      (calls obliging_world ++ [get_runner_application_call org_path "x64"]) = Ok ra /\
    ((architecture ra = "x64" /\ image_arch = "amd64") \/
     (architecture ra = "arm64" /\ image_arch = "arm64")) /\
    calls (snd (build_image "x64" one_cloud org_path None obliging_world))
    = (before ++
       [create_image_call "jammy"
          ("jammy-server-cloudimg-" ++ image_arch ++ "-compressed.img") true])%list /\
    In {| image_id := "image-new"; image_name := "jammy" |}
       (images (snd (build_image "x64" one_cloud org_path None obliging_world))).
Proof.
  apply (build_image_returns "x64" one_cloud org_path None obliging_world
           (snd (build_image "x64" one_cloud org_path None obliging_world))
           "image-new").
  vm_compute. reflexivity.
Defined.

(** X14.  Once the metadata is fetched and the build step has returned, no
    [OpenStackCloudException] comes out of [build_image]: each one raised by
    the connection, the search, a deletion or the upload is translated. *)
Theorem build_image_translates_cloud_exceptions
  (arch : string) (cc : CloudConfig) (p : GithubPath) (proxies : option ProxyConfig)
  (w w1 w2 : World) (ra : RunnerApplication) (out : string * Z) (e : exn) :
  get_runner_application p arch w = (Ok ra, w1) ->
  build_image_run_script ra proxies w1 = (Ok out, w2) ->
  fst (build_image arch cc p proxies w) = Err e ->
  is_OpenStackCloudException e = false.
Proof.
  intros Hra Hb. unfold build_image. cbv [bind try_except]. rewrite Hra. unfold Ok.
  unfold Ok in Hb. rewrite Hb. unfold lift.
  assert (Hup : forall image_arch,
             fst (build_image_upload cc image_arch w2) = Err e ->
             is_OpenStackCloudException e = false).
  { intros image_arch. unfold build_image_upload, try_except.
    destruct (bind _ _ w2) as [[e0|new_id] w3]; [|discriminate].
    destruct (is_OpenStackCloudException e0) eqn:He0; simpl;
      intros H; inversion H; subst; [reflexivity | exact He0]. }
  unfold _get_supported_runner_arch.
  destruct (String.eqb (architecture ra) "x64"); [apply Hup|].
  destruct (String.eqb (architecture ra) "arm64"); [apply Hup|].
  simpl. intros H; inversion H; subst. reflexivity.
Qed.

Lemma build_image_translates_cloud_exceptions_witness :
  fst (build_image "x64" one_cloud org_path None deletion_raising_world)
  = Err (OpenstackImageBuildError "Failed to upload image." (Some cloud_error))
  /\ is_OpenStackCloudException
       (OpenstackImageBuildError "Failed to upload image." (Some cloud_error)) = false.
Proof.
  split; [reflexivity|].
  apply (build_image_translates_cloud_exceptions "x64" one_cloud org_path None
           deletion_raising_world
           (record_call (get_runner_application_call org_path "x64")
              deletion_raising_world)
           (snd (build_image_run_script (runner_application_of "x64") None
                   (record_call (get_runner_application_call org_path "x64")
                      deletion_raising_world)))
           (runner_application_of "x64") ("", 0)); reflexivity.
Defined.

(** X15.  Of two cloud phases of [build_image] that return one after the
    other, the second deletes, with [wait], the image the first uploaded;
    one image named [jammy] is in the store after each. *)
Theorem build_image_upload_replaces_previous
  (cc1 cc2 : CloudConfig) (arch1 arch2 : string) (w w1 w2 : World)
  (id1 id2 : string) :
  build_image_upload cc1 arch1 w = (Ok id1, w1) ->
  build_image_upload cc2 arch2 w1 = (Ok id2, w2) ->
  (exists new, calls w2 = (calls w1 ++ new)%list /\
               In (delete_image_call id1 true) new) /\
  count_named IMAGE_NAME (images w1) = 1%nat /\
  count_named IMAGE_NAME (images w2) = 1%nat.
Proof.
  intros H1 H2.
  apply build_image_upload_world in H1. destruct H1 as (new1 & _ & Hcount1 & Hin1 & _).
  apply build_image_upload_world in H2.
  destruct H2 as (new2 & Hc2 & Hcount2 & _ & cloud & Hnew2).
  split; [|split; assumption].
  exists new2. split; [exact Hc2|]. rewrite Hnew2.
  right. right. apply in_or_app. left.
  apply in_map_iff. exists {| image_id := id1; image_name := IMAGE_NAME |}.
  split; [reflexivity|]. apply filter_In. split; [exact Hin1|].
  unfold image_matches. simpl. apply orb_true_r.
Qed.

Lemma build_image_upload_replaces_previous_witness :
  exists new,
    calls (snd (build_image_upload one_cloud "amd64"
                  (snd (build_image_upload one_cloud "amd64" quiet_world))))
    = (calls (snd (build_image_upload one_cloud "amd64" quiet_world)) ++ new)%list /\
    In (delete_image_call "image-new" true) new.
Proof.
  apply (build_image_upload_replaces_previous one_cloud one_cloud "amd64" "amd64"
           quiet_world
           (snd (build_image_upload one_cloud "amd64" quiet_world))
           (snd (build_image_upload one_cloud "amd64"
                   (snd (build_image_upload one_cloud "amd64" quiet_world))))
           "image-new" "image-new" eq_refl eq_refl).
Defined.

(** ** The payloads of an instance *)

Lemma dockerhub_mirror_or_empty (mirror : option string) :
  (if opt_str_truthy mirror
   then match mirror with Some m => m | None => "" end
   else "") = str_text mirror.
Proof. destruct mirror as [[|c m]|]; reflexivity. Qed.

(** X16.  When [_generate_runner_env] returns, its last call rendered
    [env.j2] with the proxies as given, an empty pre-job script, the mirror
    or the empty text, and the SSH debug connection: none, with no draw
    made, when the list is [None] or empty; otherwise the member of the
    list picked by the one draw made after the template was fetched. *)
Theorem _generate_runner_env_context
  (templates_env : Environment) (proxies : option ProxyConfig)
  (mirror : option string) (ssh : option (list SSHDebugConnection))
  (w w' : World) (text : string) :
  _generate_runner_env templates_env proxies mirror ssh w = (Ok text, w') ->
  exists before info,
    calls w' = (before ++
                [render_call "env.j2"
                   [("proxies", TProxies proxies);
                    ("pre_job_script", TStr "");
                    ("dockerhub_mirror", TStr (str_text mirror));
                    ("ssh_debug_info", TSshDebug info)]])%list /\
    match info with
    | Some connection =>
        exists l, ssh = Some l /\ In connection l /\
                  before = (calls w ++ [get_template_call "env.j2";
                                        choice_call (length l)])%list
    | None =>
        (ssh = None \/ ssh = Some []) /\
        before = (calls w ++ [get_template_call "env.j2"])%list
    end.
Proof.
  unfold _generate_runner_env. rewrite dockerhub_mirror_or_empty.
  cbv [bind get_template external raise_or no_effect].
  destruct (on_get_template _ _); [discriminate|].
  destruct ssh as [[|c others]|].
  - cbv [ret render external no_effect]. simpl.
    destruct (on_render _ _); [discriminate|]. intros H; inversion H; subst.
    eexists. exists None. simpl. split; [reflexivity|]. auto.
  - cbv [bind choice ret render external no_effect Ok].
    set (chosen := nth _ (c :: others) c).
    assert (Hchosen : In chosen (c :: others)).
    { apply nth_In. change (length (c :: others)) with (S (length others)).
      apply Nat.mod_upper_bound. discriminate. }
    clearbody chosen. simpl.
    destruct (on_render _ _); [discriminate|]. intros H; inversion H; subst.
    eexists. exists (Some chosen). simpl. split; [reflexivity|].
    exists (c :: others). split; [reflexivity|]. split; [exact Hchosen|].
    rewrite <- app_assoc. reflexivity.
  - cbv [ret render external no_effect]. simpl.
    destruct (on_render _ _); [discriminate|]. intros H; inversion H; subst.
    eexists. exists None. simpl. split; [reflexivity|]. auto.
Qed.

Lemma _generate_runner_env_context_witness :
  exists before info,
    calls (snd (_generate_runner_env templates_environment None None
                  (Some [relay_one; relay_two]) quiet_world))
    = (before ++
       [render_call "env.j2"
          [("proxies", TProxies None);
           ("pre_job_script", TStr "");
           ("dockerhub_mirror", TStr (str_text None));
           ("ssh_debug_info", TSshDebug info)]])%list /\
    match info with
    | Some connection =>
        exists l, Some [relay_one; relay_two] = Some l /\ In connection l /\
                  before = (calls quiet_world ++ [get_template_call "env.j2";
                                                  choice_call (length l)])%list
    | None =>
        (Some [relay_one; relay_two] = None \/ Some [relay_one; relay_two] = Some []) /\
        before = (calls quiet_world ++ [get_template_call "env.j2"])%list
    end.
Proof.
  apply (_generate_runner_env_context templates_environment None None
           (Some [relay_one; relay_two]) quiet_world _ "rendered").
  reflexivity.
Defined.

(** [_generate_runner_env] and [_generate_cloud_init_userdata] leave images
    and servers alone. *)
Lemma _generate_runner_env_frame templates_env proxies mirror ssh w r w' :
  _generate_runner_env templates_env proxies mirror ssh w = (r, w') ->
  images w' = images w /\ servers w' = servers w /\ stub w' = stub w.
Proof.
  unfold _generate_runner_env.
  cbv [bind get_template external raise_or no_effect].
  destruct (on_get_template _ _); [intros H; inversion H; subst; auto|].
  destruct ssh as [[|c others]|];
    cbv [bind choice ret render external no_effect Ok];
    destruct (on_render _ _); intros H; inversion H; subst; auto.
Qed.

Lemma _generate_cloud_init_userdata_frame templates_env ic runner_env w r w' :
  _generate_cloud_init_userdata templates_env ic runner_env w = (r, w') ->
  images w' = images w /\ servers w' = servers w /\ stub w' = stub w.
Proof.
  unfold _generate_cloud_init_userdata.
  cbv [bind get_template render external raise_or no_effect].
  destruct (on_get_template _ _); [intros H; inversion H; subst; auto|].
  destruct (on_render _ _); intros H; inversion H; subst; auto.
Qed.

Lemma _create_connection_servers cc w r w' :
  _create_connection cc w = (r, w') -> servers w' = servers w.
Proof.
  unfold _create_connection.
  destruct (dict_getitem cc "clouds") as [entries|];
    [|unfold raise; intros H; inversion H; reflexivity].
  destruct (dict_keys entries) as [|cloud others];
    cbv [bind logger_warning ret raise openstack_connect external raise_or no_effect];
    simpl; intros H; step_world; reflexivity.
Qed.

(** What an attempt of [create_instance] does to the image store and to
    the servers. *)
Lemma create_instance_wrapped_world
  (cc : CloudConfig) (ic : InstanceConfig) (proxies : option ProxyConfig)
  (mirror : option string) (ssh : option (list SSHDebugConnection))
  (w w' : World) (r : result unit) :
  create_instance_wrapped cc ic proxies mirror ssh w = (r, w') ->
  images w' = images w /\
  match r with
  | inr _ =>
      exists userdata before cloud,
        servers w' = (servers w ++
                      [{| server_name := name ic;
                          server_image := openstack_image ic;
                          server_flavor := "m1.small";
                          server_userdata := userdata |}])%list /\
        calls w' = (before ++
                    [connect_call cloud;
                     create_server_call (name ic) (openstack_image ic)
                       "m1.small" userdata true])%list
  | inl _ => servers w' = servers w
  end.
Proof.
  unfold create_instance_wrapped. unfold bind at 1.
  destruct (_generate_runner_env _ _ _ _ w) as [[e|env_contents] w1] eqn:Henv;
    apply _generate_runner_env_frame in Henv; destruct Henv as (Hi1 & Hs1 & _).
  { intros H; inversion H; subst. auto. }
  unfold bind at 1.
  destruct (_generate_cloud_init_userdata _ _ _ w1) as [[e|userdata] w2] eqn:Hdata;
    apply _generate_cloud_init_userdata_frame in Hdata; destruct Hdata as (Hi2 & Hs2 & _).
  { intros H; inversion H; subst. split; congruence. }
  unfold try_except, bind.
  destruct (_create_connection cc w2) as [[e|conn] w3] eqn:Hconn.
  - pose proof (_create_connection_world _ _ _ _ Hconn) as (Hi3 & _).
    apply _create_connection_servers in Hconn. rename Hconn into Hs3.
    destruct (is_OpenStackCloudException e); unfold raise;
      intros H; inversion H; subst; split; congruence.
  - pose proof (_create_connection_world _ _ _ _ Hconn) as (Hi3 & _ & Hcalls).
    apply _create_connection_servers in Hconn. rename Hconn into Hs3.
    destruct Hcalls as [[_ (e & He & _)] | (cloud & Hcalls)]; [discriminate|].
    unfold create_server, external, raise_or.
    destruct (on_create_server _ _) as [e|].
    + destruct (is_OpenStackCloudException e); unfold raise;
        intros H; inversion H; subst; simpl; split; congruence.
    + intros H; inversion H; subst; simpl. split; [congruence|].
      exists userdata, (calls w2), cloud. split; [congruence|].
      rewrite Hcalls, <- app_assoc. reflexivity.
Qed.

(** X17.  An attempt of [create_instance] leaves the image store alone and
    asks for at most one server: when it returns, the servers are the ones
    before and one more, of the name and image of the instance
    configuration and of flavor [m1.small], and the last two calls are the
    connection and the waited request for that server; when it raises, the
    servers are the ones before. *)
Theorem create_instance_wrapped_servers
  (cc : CloudConfig) (ic : InstanceConfig) (proxies : option ProxyConfig)
  (mirror : option string) (ssh : option (list SSHDebugConnection))
  (w w' : World) (r : result unit) :
  create_instance_wrapped cc ic proxies mirror ssh w = (r, w') ->
  images w' = images w /\
  match r with
  | inr _ =>
      exists userdata before cloud,
        servers w' = (servers w ++
                      [{| server_name := name ic;
                          server_image := openstack_image ic;
                          server_flavor := "m1.small";
                          server_userdata := userdata |}])%list /\
        calls w' = (before ++
                    [connect_call cloud;
                     create_server_call (name ic) (openstack_image ic)
                       "m1.small" userdata true])%list
  | inl _ => servers w' = servers w
  end.
Proof. apply create_instance_wrapped_world. Qed.

Lemma create_instance_wrapped_servers_witness :
  images (snd (create_instance_wrapped one_cloud runner_config None None None
                 (world_where_server (fun _ => None))))
  = images (world_where_server (fun _ => None)).
Proof.
  exact (proj1 (create_instance_wrapped_servers one_cloud runner_config None None None
                  (world_where_server (fun _ => None))
                  (snd (create_instance_wrapped one_cloud runner_config None None None
                          (world_where_server (fun _ => None))))
                  (fst (create_instance_wrapped one_cloud runner_config None None None
                          (world_where_server (fun _ => None))))
                  eq_refl)).
Defined.

(** X18.  Once both payloads are rendered, an attempt of [create_instance]
    that raises does so with what the connection or the server request
    raised: wrapped in the launch error when that is an
    [OpenStackCloudException], as it is otherwise.  No
    [OpenStackCloudException] comes out of these two calls untranslated. *)
Theorem create_instance_wrapped_failure
  (cc : CloudConfig) (ic : InstanceConfig) (proxies : option ProxyConfig)
  (mirror : option string) (ssh : option (list SSHDebugConnection))
  (w w1 w2 : World) (env_contents cloud_userdata : string) (e : exn) :
  _generate_runner_env templates_environment proxies mirror ssh w = (Ok env_contents, w1) ->
  _generate_cloud_init_userdata templates_environment ic env_contents w1
    = (Ok cloud_userdata, w2) ->
  fst (create_instance_wrapped cc ic proxies mirror ssh w) = Err e ->
  exists raised,
    fst ((conn <- _create_connection cc ;;
          create_server conn (name ic) (openstack_image ic) "m1.small"
            cloud_userdata true) w2) = Err raised /\
    e = (if is_OpenStackCloudException raised
         then InstanceLaunchError "Failed to launch instance." (Some raised)
         else raised) /\
    is_OpenStackCloudException e = false.
Proof.
  intros Henv Hdata. unfold create_instance_wrapped.
  unfold bind at 1. rewrite Henv. unfold Ok.
  unfold bind at 1. unfold Ok in Hdata. rewrite Hdata.
  unfold try_except.
  destruct (bind _ _ w2) as [[raised|u] w3]; [|discriminate].
  exists raised. split; [reflexivity|].
  destruct (is_OpenStackCloudException raised) eqn:Hr; simpl in *;
    inversion H; subst; auto.
Qed.

Lemma create_instance_wrapped_failure_witness :
  exists raised,
    fst ((conn <- _create_connection one_cloud ;;
          create_server conn (name runner_config) (openstack_image runner_config)
            "m1.small" "rendered" true)
           (snd (_generate_cloud_init_userdata templates_environment runner_config
                   "rendered"
                   (snd (_generate_runner_env templates_environment None None None
                           (world_where_server server_always_fails))))))
    = Err raised /\
    InstanceLaunchError "Failed to launch instance." (Some cloud_error)
    = (if is_OpenStackCloudException raised
       then InstanceLaunchError "Failed to launch instance." (Some raised)
       else raised) /\
    is_OpenStackCloudException
      (InstanceLaunchError "Failed to launch instance." (Some cloud_error)) = false.
Proof.
  apply (create_instance_wrapped_failure one_cloud runner_config None None None
           (world_where_server server_always_fails)
           (snd (_generate_runner_env templates_environment None None None
                   (world_where_server server_always_fails)))
           (snd (_generate_cloud_init_userdata templates_environment runner_config
                   "rendered"
                   (snd (_generate_runner_env templates_environment None None None
                           (world_where_server server_always_fails)))))
           "rendered" "rendered"); reflexivity.
Defined.

(** X19.  The user data rendered for a configuration made by
    [create_instance_config] carries the URL of the path on github.com, the
    token that call was issued, the labels [app,jammy] joined by a comma,
    the name of the instance and the environment text, in the one [render]
    call, made last. *)
Theorem cloud_init_userdata_of_instance_config
  (unit_name : string) (image : Image) (p : GithubPath) (w0 w0' w w' : World)
  (ic : InstanceConfig) (templates_env : Environment) (runner_env text : string) :
  create_instance_config unit_name image p w0 = (Ok ic, w0') ->
  _generate_cloud_init_userdata templates_env ic runner_env w = (Ok text, w') ->
  exists app_name unit_num,
    unit_name = app_name ++ "/" ++ unit_num /\
    calls w' = (calls w ++
                [get_template_call "openstack-userdata.sh.j2";
                 render_call "openstack-userdata.sh.j2"
                   [("github_url", TStr ("https://github.com/" ++ path p));
                    ("token", TStr (registration_token ic));
                    ("instance_labels", TStr (app_name ++ ",jammy"));
                    ("instance_name", TStr (name ic));
                    ("env_contents", TStr runner_env)]])%list /\
    on_get_runner_registration_token (stub w0)
      (calls w0 ++ [token_hex_call 12; get_runner_registration_token_call p])
    = Ok (registration_token ic).
Proof.
  intros Hic Hdata.
  unfold create_instance_config in Hic.
  destruct (rsplit1 "/" unit_name) as [[app_name unit_num]|] eqn:Hsplit;
    [|discriminate].
  apply rsplit1_some in Hsplit. destruct Hsplit as [Hname _].
  revert Hic.
  cbv [bind token_hex get_runner_registration_token external ret no_effect Ok].
  simpl. rewrite <- app_assoc. simpl.
  destruct (on_get_runner_registration_token _ _) as [e|tok] eqn:Htok; [discriminate|].
  intros Hic. inversion Hic; subst ic w0'. clear Hic.
  exists app_name, unit_num. split; [exact Hname|]. split; [|reflexivity].
  revert Hdata. unfold _generate_cloud_init_userdata.
  cbv [bind get_template render external raise_or no_effect]. simpl.
  destruct (on_get_template _ _); [discriminate|].
  destruct (on_render _ _); [discriminate|].
  intros H; inversion H; subst. simpl. rewrite <- app_assoc. reflexivity.
Qed.

Lemma cloud_init_userdata_of_instance_config_witness :
  exists app_name unit_num,
    "github-runner/0" = app_name ++ "/" ++ unit_num /\
    calls (snd (_generate_cloud_init_userdata templates_environment runner_config
                  "PROXY=" quiet_world))
    = (calls quiet_world ++
       [get_template_call "openstack-userdata.sh.j2";
        render_call "openstack-userdata.sh.j2"
          [("github_url", TStr ("https://github.com/" ++ path org_path));
           ("token", TStr (registration_token runner_config));
           ("instance_labels", TStr (app_name ++ ",jammy"));
           ("instance_name", TStr (name runner_config));
           ("env_contents", TStr "PROXY=")]])%list /\
    on_get_runner_registration_token (stub quiet_world)
      (calls quiet_world ++ [token_hex_call 12; get_runner_registration_token_call org_path])
    = Ok (registration_token runner_config).
Proof.
  apply (cloud_init_userdata_of_instance_config "github-runner/0" jammy_image org_path
           quiet_world
           (snd (create_instance_config "github-runner/0" jammy_image org_path
                   quiet_world))
           quiet_world
           (snd (_generate_cloud_init_userdata templates_environment runner_config
                   "PROXY=" quiet_world))
           runner_config templates_environment "PROXY=" "rendered"); reflexivity.
Defined.

(** ** [list_projects] *)

(** X20.  [list_projects] translates [Unauthorized] only when listing
    raises it: what the connection raises, [Unauthorized] included, comes
    out as it is, the connection being made outside the [try], and the
    listing is not reached; an exception of the listing comes out as the
    unauthorized error around it when it is [Unauthorized] and as it is
    otherwise. *)
Theorem list_projects_failures
  (Project : Type) (conn_list_projects : Connection -> M (list Project))
  (is_Unauthorized : exn -> bool)
  (OpenStackUnauthorizedError : string -> option exn -> exn)
  (cc : CloudConfig) (w w1 : World) :
  (forall e,
     _create_connection cc w = (Err e, w1) ->
     list_projects Project conn_list_projects is_Unauthorized
       OpenStackUnauthorizedError cc w = (Err e, w1))
  /\ (forall conn e w2,
        _create_connection cc w = (Ok conn, w1) ->
        conn_list_projects conn w1 = (Err e, w2) ->
        list_projects Project conn_list_projects is_Unauthorized
          OpenStackUnauthorizedError cc w
        = (Err (if is_Unauthorized e
                then OpenStackUnauthorizedError "Unauthorized to connect to OpenStack."
                       (Some e)
                else e), w2)).
Proof.
  split.
  - intros e Hconn. unfold list_projects, bind. unfold Err in Hconn.
    rewrite Hconn. reflexivity.
  - intros conn e w2 Hconn Hlist. unfold list_projects. unfold bind at 1.
    unfold Ok in Hconn. rewrite Hconn. unfold try_except, bind.
    unfold Err in Hlist. rewrite Hlist.
    destruct (is_Unauthorized e); reflexivity.
Qed.

Lemma list_projects_failures_witness :
  list_projects string refused_listing sample_is_Unauthorized sample_unauthorized_error
    no_clouds quiet_world
  = (Err (IndexError "list index out of range"), quiet_world)
  /\ list_projects string refused_listing sample_is_Unauthorized sample_unauthorized_error
       one_cloud quiet_world
     = (Err (OtherException
               "OpenStackUnauthorizedError: Unauthorized to connect to OpenStack."),
        record_call (connect_call "mycloud") quiet_world).
Proof.
  split.
  - apply (proj1 (list_projects_failures string refused_listing sample_is_Unauthorized
                    sample_unauthorized_error no_clouds quiet_world quiet_world)).
    reflexivity.
  - apply (proj2 (list_projects_failures string refused_listing sample_is_Unauthorized
                    sample_unauthorized_error one_cloud quiet_world
                    (record_call (connect_call "mycloud") quiet_world))
             {| connection_cloud := "mycloud" |} unauthorized
             (record_call (connect_call "mycloud") quiet_world));
      reflexivity.
Defined.

(** ** [create_instance] *)

(** The loop of [retry] around an operation that adds one server when it
    returns and none when it raises, and leaves the images alone, does the
    same as a whole. *)
Lemma retry_loop_servers (func : M unit) (added : Server -> Prop)
  (max_delay : option Z) (backoff : Z) :
  (forall w r w',
     func w = (r, w') ->
     images w' = images w /\
     match r with
     | inr _ => exists s, servers w' = (servers w ++ [s])%list /\ added s
     | inl _ => servers w' = servers w
     end) ->
  forall tries delay w r w',
    retry_loop tries delay max_delay backoff func w = (r, w') ->
    images w' = images w /\
    match r with
    | inr _ => exists s, servers w' = (servers w ++ [s])%list /\ added s
    | inl _ => servers w' = servers w
    end.
Proof.
  intros Hfunc. induction tries as [|remaining IH]; intros delay w r w'.
  - simpl. unfold raise. intros H; inversion H; subst. auto.
  - cbn [retry_loop]. unfold try_except.
    destruct (func w) as [[e|u] w1] eqn:Hrun; apply Hfunc in Hrun.
    + destruct Hrun as [Hi Hs]. destruct remaining as [|remaining'].
      * unfold raise. intros H; inversion H; subst. auto.
      * unfold bind. rewrite sleep_world. intros H. apply IH in H.
        simpl in H. rewrite Hi, Hs in H. exact H.
    + intros H; inversion H; subst. exact Hrun.
Qed.

(** X21.  With the retry policy as modelled for the decorator, a call of
    [create_instance] leaves the image store alone and adds exactly one
    server, of the name and image of the instance configuration and of
    flavor [m1.small], when it returns, and none when it raises: a failed
    attempt leaves no server behind and a success is not repeated. *)
Theorem create_instance_servers
  (cc : CloudConfig) (ic : InstanceConfig) (proxies : option ProxyConfig)
  (mirror : option string) (ssh : option (list SSHDebugConnection))
  (w w' : World) (r : result unit) :
  create_instance cc ic proxies mirror ssh w = (r, w') ->
  images w' = images w /\
  match r with
  | inr _ =>
      exists userdata,
        servers w' = (servers w ++
                      [{| server_name := name ic;
                          server_image := openstack_image ic;
                          server_flavor := "m1.small";
                          server_userdata := userdata |}])%list
  | inl _ => servers w' = servers w
  end.
Proof.
  intros H. unfold create_instance, retry in H.
  apply (retry_loop_servers _
           (fun s => exists userdata,
                       s = {| server_name := name ic;
                              server_image := openstack_image ic;
                              server_flavor := "m1.small";
                              server_userdata := userdata |})) in H.
  - destruct H as [Hi Hs]. split; [exact Hi|].
    destruct r as [e|u]; [exact Hs|].
    destruct Hs as (s & Hs & userdata & ->). exists userdata. exact Hs.
  - intros w0 r0 w0' Hrun. apply create_instance_wrapped_world in Hrun.
    destruct Hrun as [Hi Hs]. split; [exact Hi|].
    destruct r0 as [e|u]; [exact Hs|].
    destruct Hs as (userdata & before & cloud & Hs & _).
    eexists. split; [exact Hs|]. exists userdata. reflexivity.
Qed.

Lemma create_instance_servers_witness :
  length (servers (snd (create_instance one_cloud runner_config None None None
                          (world_where_server (server_succeeds_at 3))))) = 1%nat
  /\ servers (snd (create_instance one_cloud runner_config None None None
                     (world_where_server server_always_fails))) = [].
Proof.
  split.
  - pose proof (create_instance_servers one_cloud runner_config None None None
                  (world_where_server (server_succeeds_at 3))
                  (snd (create_instance one_cloud runner_config None None None
                          (world_where_server (server_succeeds_at 3))))
                  (Ok tt)) as H.
    destruct H as (_ & userdata & Hs); [vm_compute; reflexivity|].
    rewrite Hs. reflexivity.
  - pose proof (create_instance_servers one_cloud runner_config None None None
                  (world_where_server server_always_fails)
                  (snd (create_instance one_cloud runner_config None None None
                          (world_where_server server_always_fails)))
                  (Err (InstanceLaunchError "Failed to launch instance."
                          (Some cloud_error)))) as H.
    destruct H as (_ & Hs); [vm_compute; reflexivity|].
    exact Hs.
Defined.
